(** * Holotree library (htfs/library.go): a shallow embedding

    The development follows the layout of [htfs/library.go]:
    - [Stats]    the [stats] counters and [Dirtyness];
    - [Paths]    the path and formatting helpers the library uses;
    - [Htfs]     catalogs, the file system the library works on, the zip
                 writer [zipseen], [Export], [Remove], [HasBlueprint],
                 [TargetDir] and [RestoreTo];
    - [Sample]   a small installation to run the definitions on.
    The properties follow in [StatsFacts], [QueryFacts], [PathFacts],
    [ExportFacts] and [RestoreFacts].

    Go values are modelled as the code has them: [uint64] counters as [Z]
    with the wrap-around written out, [string] and [[]byte] as [string],
    [map[string]bool] as [gmap string bool], Go's [error] as
    [option string] ([None] is [nil]). *)

From Stdlib Require Import ZArith QArith Lia Ascii String.
From stdpp Require Import gmap strings list.

Local Open Scope Z_scope.

(** ** Outcomes of a call

    [Return v] is a normal return with a [nil] error, [Fail msg] a return
    with a non-nil error (what [fail.On] raises and the deferred
    [fail.Around] stores into the named result), and [Panic msg] a Go panic
    that is not raised by [fail.On] ([panic(err)] in [Stage], a run-time
    integer division by zero). *)
Inductive outcome (A : Type) : Type :=
  | Return (a : A)
  | Fail (msg : string)
  | Panic (msg : string).
Arguments Return {A} a.
Arguments Fail {A} msg.
Arguments Panic {A} msg.

Definition returned {A} (o : outcome A) : bool :=
  match o with Return _ => true | _ => false end.

Definition failed {A} (o : outcome A) : bool :=
  match o with Fail _ => true | _ => false end.

(** ** The [stats] counters *)
Module Stats.

Definition uint64_mod : Z := 2 ^ 64.

(** Arithmetic on [uint64] wraps around. *)
Definition wrap64 (z : Z) : Z := z mod uint64_mod.

(** [type stats struct { sync.Mutex; total, dirty, links, duplicate uint64 }].
    The mutex only serialises the methods; each method below is one
    critical section. *)
Record stats : Type := {
  total : Z;
  dirty : Z;
  links : Z;
  duplicate : Z;
}.

Definition in_uint64 (z : Z) : Prop := 0 <= z < uint64_mod.

Definition well_formed (it : stats) : Prop :=
  in_uint64 (total it) /\ in_uint64 (dirty it) /\
  in_uint64 (links it) /\ in_uint64 (duplicate it).

(** [score := &stats{}] *)
Definition zero : stats :=
  {| total := 0; dirty := 0; links := 0; duplicate := 0 |}.

(** [dirtyness := (1000 * it.dirty) / it.total]: the product wraps, the
    division panics when [it.total] is zero. *)
Definition dirtyness_tenths (it : stats) : option Z :=
  if total it =? 0 then None
  else Some (wrap64 (1000 * dirty it) / total it).

(** [func (it *stats) Dirtyness() float64]. The result
    [float64(dirtyness) / 10.0] is kept as the exact fraction
    [dirtyness / 10]; [None] is the run-time panic of the integer
    division by zero. *)
Definition Dirtyness (it : stats) : option Q :=
  match dirtyness_tenths it with
  | None => None
  | Some dirtyness => Some (Qmake dirtyness 10)
  end.


(** [func (it *stats) Duplicate()] *)
Definition Duplicate (it : stats) : stats :=
  {| total := wrap64 (total it + 1);
     dirty := dirty it;
     links := links it;
     duplicate := wrap64 (duplicate it + 1) |}.

(** [func (it *stats) Link()] *)
Definition Link (it : stats) : stats :=
  {| total := wrap64 (total it + 1);
     dirty := dirty it;
     links := wrap64 (links it + 1);
     duplicate := duplicate it |}.

(** [func (it *stats) Dirty(dirty bool)] *)
Definition Dirty (isdirty : bool) (it : stats) : stats :=
  {| total := wrap64 (total it + 1);
     dirty := if isdirty then wrap64 (dirty it + 1) else dirty it;
     links := links it;
     duplicate := duplicate it |}.

(** One counting call, as the per-file tasks of a phase issue them. *)
Inductive count_op : Type :=
  | OpDuplicate
  | OpLink
  | OpDirty (isdirty : bool).

Definition count (op : count_op) (it : stats) : stats :=
  match op with
  | OpDuplicate => Duplicate it
  | OpLink => Link it
  | OpDirty b => Dirty b it
  end.

(** The counters after a run of counting calls, first call first. *)
Definition count_all (ops : list count_op) (it : stats) : stats :=
  fold_left (fun acc op => count op acc) ops it.

End Stats.


(** ** Paths and formatting *)
Module Paths.

Local Open Scope string_scope.

(** [filepath.Join(dir, name)] for clean, non-empty elements: the two are
    joined by the separator (no element here needs [filepath.Clean]). *)
Definition Join (dir name : string) : string := dir +:+ "/" +:+ name.

(** [strip_prefix p s] is the rest of [s] after the prefix [p]. *)
Fixpoint strip_prefix (p s : string) : option string :=
  match p with
  | EmptyString => Some s
  | String c p' =>
      match s with
      | EmptyString => None
      | String c' s' => if Ascii.eqb c c' then strip_prefix p' s' else None
      end
  end.

(** [filepath.Rel(base, target)] for a target below [base]: the path of
    [target] from [base]. For a target that is not below [base] the model
    answers with an error ([None]); the library only asks for paths below
    the hololib root. *)
Definition Rel (base target : string) : option string :=
  strip_prefix (base +:+ "/") target.

(** The double quote character. *)
Definition dquote : Ascii.ascii := Ascii.ascii_of_nat 34.

(** The backslash character. *)
Definition backslash : Ascii.ascii := Ascii.ascii_of_nat 92.

(** Escaping inside [%q]: a double quote and a backslash get a backslash
    in front (blueprint keys are lowercase hexadecimal, no other escape
    applies to them). *)
Fixpoint escape (s : string) : string :=
  match s with
  | EmptyString => EmptyString
  | String c s' =>
      if Ascii.eqb c dquote || Ascii.eqb c backslash
      then String backslash (String c (escape s'))
      else String c (escape s')
  end.

(** The verb [%q] of [fmt.Sprintf] on a string. *)
Definition quoted (s : string) : string :=
  String dquote (escape s) +:+ String dquote EmptyString.

(** One lowercase hexadecimal digit. *)
Definition hex_digit (n : Z) : Ascii.ascii :=
  match String.get (Z.to_nat n) "0123456789abcdef" with
  | Some c => c
  | None => "0"%char
  end.

(** The last [k] hexadecimal digits of [z], most significant first. *)
Fixpoint hex_digits (k : nat) (z : Z) (acc : string) : string :=
  match k with
  | O => acc
  | S k' => hex_digits k' (z / 16) (String (hex_digit (z mod 16)) acc)
  end.

(** [fmt.Sprintf("%016x", z)] for a [uint64]. *)
Definition hex016 (z : Z) : string := hex_digits 16 z EmptyString.

End Paths.


(** ** The holotree library *)
Module Htfs.

Import Paths.
Local Open Scope string_scope.

(** *** Collaborators outside [library.go] *)

(** Modelled from the spec: the functions of package [common] that
    [library.go] calls are not part of the sources at hand; the record
    holds what they answer in one process. [BlueprintHash] is the
    digest-of-blueprint function, [Sipit] the short process-scope hash and
    [Textual] its textual form cut to a number of characters. *)
Record Common : Type := {
  HololibLocation : string;
  HolotreeLocation : string;
  ProductTemp : string;
  Platform : string;
  UserHomeIdentity : string;
  SharedHolotree : bool;
  BlueprintHash : string -> string;
  Sipit : string -> Z;
  Textual : Z -> Z -> string;
}.

(** Modelled from the spec: [common.HololibCatalogLocation()], the
    directory [catalog] below the hololib root (the one [New] creates with
    [makedirs(common.HololibLocation(), "library", "catalog")]). *)
Definition HololibCatalogLocation (cfg : Common) : string :=
  Join (HololibLocation cfg) "catalog".

(** Modelled from the spec: [common.HololibLibraryLocation()], the
    directory [library] below the hololib root. *)
Definition HololibLibraryLocation (cfg : Common) : string :=
  Join (HololibLocation cfg) "library".

(** Modelled from the spec: a FileNode of a catalog, with the fields the
    library reads. *)
Record File : Type := {
  file_name : string;
  Digest : string;
  file_mode : Z;
  file_size : Z;
}.

(** Modelled from the spec: a DirNode, its sub-directories and files in
    name order. *)
#[warnings="-register-all"]
Inductive Dir : Type :=
  | MkDir (name : string) (Dirs : list Dir) (Files : list File).

(** Modelled from the spec: the root of a catalog. *)
Record Root : Type := {
  Blueprint : string;
  RootPlatform : string;
  Controller : string;
  Space : string;
  Path : string;
  Tree : Dir;
}.

(** The FileNodes of a directory tree in depth-first order, the files of a
    directory before those of its sub-directories. *)
Fixpoint files_of (d : Dir) : list File :=
  match d with
  | MkDir _ dirs fs =>
      (fs ++ (fix below (ds : list Dir) : list File :=
                match ds with
                | [] => []
                | d' :: ds' => files_of d' ++ below ds'
                end) dirs)%list
  end.

(** The digests a catalog refers to, in traversal order. *)
Definition refs (fs : Root) : list string :=
  Digest <$> files_of (Tree fs).

(** What a path of the file system holds: a regular file that
    deserialises to a catalog, any other regular file, or a directory. *)
Inductive node : Type :=
  | CatalogFile (fs : Root)
  | PlainFile (data : string)
  | Folder.

(** The file system: what each path holds. *)
Abbreviation fsys := (gmap string node).

(** What the operating system and the packages outside [library.go]
    answer: for each fallible call the error it returns ([None] for
    [nil]). The functions of package [htfs] that are not in
    [library.go] ([CatalogCheck], [HolotreeBase], [Relocate],
    [MakeBranches], [RestoreDirectory], [DigestRecorder], [SaveAs]) are
    taken as they answer, without a model of their own. *)
Record Env : Type := {
  MkdirAll_err : string -> option string;
  NewRoot_err : string -> option string;
  Create_err : string -> option string;
  ZipCreate_err : string -> option string;
  Copy_err : string -> string -> option string;
  Remove_err : string -> option string;
  CatalogCheck_err : fsys -> Root -> option string;
  HolotreeBase : Root -> string;
  Locker_err : string -> Z -> bool -> option string;
  DigestRecorder : Root -> gmap string string;
  Relocate_err : Root -> string -> option string;
  Relocated : Root -> string -> Root;
  MakeBranches_err : Root -> option string;
  RestoreDirectory_err : fsys -> Root -> gmap string string -> option string;
  RestoreDirectory_score : fsys -> Root -> gmap string string -> Stats.stats;
  SaveAs_err : string -> Root -> option string;
}.

(** [pathlib.IsFile(path)]: the path holds a regular file. *)
Definition IsFile (disk : fsys) (path : string) : bool :=
  match disk !! path with
  | Some (CatalogFile _) | Some (PlainFile _) => true
  | _ => false
  end.

(** [pathlib.FileExist(path)] *)
Definition FileExist (disk : fsys) (path : string) : bool :=
  IsFile disk path.

(** Modelled from the spec: [NewRoot(basedir)] constructs an empty Root
    anchored at [basedir]. *)
Definition empty_root (basedir : string) : Root :=
  {| Blueprint := ""; RootPlatform := ""; Controller := ""; Space := "";
     Path := basedir; Tree := MkDir "" [] [] |}.

(** [fs, err := NewRoot(path)] *)
Definition NewRoot (env : Env) (path : string) : option string * Root :=
  (NewRoot_err env path, empty_root path).

(** Modelled from the spec: [err = fs.LoadFrom(path)] deserialises a
    previously saved catalog file into [fs]; it fails on a path that does
    not hold one and leaves [fs] as it was. *)
Definition LoadFrom (disk : fsys) (fs : Root) (path : string)
  : option string * Root :=
  match disk !! path with
  | Some (CatalogFile loaded) => (None, loaded)
  | Some (PlainFile _) => (Some ("cannot decode " +:+ path), fs)
  | Some Folder => (Some (path +:+ " is a directory"), fs)
  | None => (Some ("cannot open " +:+ path), fs)
  end.

(** *** The library object *)

(** [type hololib struct] *)
Record hololib : Type := {
  identity : Z;
  basedir : string;
  queryCache : gmap string bool;
}.

(** [func (it *hololib) Location(digest string) string] *)
Definition Location (cfg : Common) (digest : string) : string :=
  Join (Join (Join (HololibLibraryLocation cfg) (substring 0 2 digest))
             (substring 2 2 digest))
       (substring 4 2 digest).

(** [func ExactDefaultLocation(digest string) string]. Go panics on a
    digest shorter than six bytes; [substring] is shorter there. *)
Definition ExactDefaultLocation (cfg : Common) (digest : string) : string :=
  Join (Join (Join (Join (HololibLibraryLocation cfg) (substring 0 2 digest))
                   (substring 2 2 digest))
             (substring 4 2 digest))
       digest.


(** [func (it *hololib) ExactLocation(digest string) string] *)
Definition ExactLocation (cfg : Common) (digest : string) : string :=
  ExactDefaultLocation cfg digest.

(** [func (it *hololib) Identity() string] *)
Definition Identity (cfg : Common) (it : hololib) : string :=
  let suffix := hex016 (identity it) in
  "h" +:+ UserHomeIdentity cfg +:+ "_" +:+ substring 0 14 suffix +:+ "t".

(** [func (it *hololib) Stage() string]: the stage directory, after
    [os.MkdirAll] on it; a failure of [os.MkdirAll] is a panic. *)
Definition Stage (cfg : Common) (env : Env) (it : hololib) : outcome string :=
  let stage := Join (HolotreeLocation cfg) (Identity cfg it) in
  match MkdirAll_err env stage with
  | Some err => Panic err
  | None => Return stage
  end.

(** [func CatalogName(key string) string] *)
Definition CatalogName (cfg : Common) (key : string) : string :=
  key +:+ "v12." +:+ Platform cfg.

(** [func (it *hololib) CatalogPath(key string) string] *)
Definition CatalogPath (cfg : Common) (key : string) : string :=
  Join (HololibCatalogLocation cfg) (CatalogName cfg key).

(** [func ControllerSpaceName(client, tag []byte) string] *)
Definition ControllerSpaceName (cfg : Common) (client tag : string) : string :=
  let prefix := Textual cfg (Sipit cfg client) 7 in
  let suffix := Textual cfg (Sipit cfg tag) 8 in
  UserHomeIdentity cfg +:+ "_" +:+ prefix +:+ "_" +:+ suffix.

(** [func (it *hololib) WarrantyVoidedDir(controller, space []byte) string] *)
Definition WarrantyVoidedDir (cfg : Common) (controller space : string) : string :=
  Join (HolotreeLocation cfg) (ControllerSpaceName cfg controller space).

(** *** The zip writer *)

(** One entry of the archive: its name and what was copied into it;
    [None] for an entry that was created but whose copy failed. *)
Record zip_entry : Type := {
  entry_name : string;
  entry_data : option node;
}.

(** [type zipseen struct { *zip.Writer; seen map[string]bool }]: the
    entries written so far, first entry first, and the paths seen. The
    writer and the map are shared by every visitor of one export, so the
    value is threaded through the calls. *)
Record zipseen : Type := {
  written : list zip_entry;
  seen : gmap string bool;
}.

(** [&zipseen{writer, make(map[string]bool)}] on a fresh writer *)
Definition new_zipseen : zipseen := {| written := []; seen := ∅ |}.

(** [it.seen[relativepath]]: a missing key reads as [false]. *)
Definition is_seen (it : zipseen) (relativepath : string) : bool :=
  default false (seen it !! relativepath).


(** [func (it zipseen) Ignore(relativepath string)] *)
Definition Ignore (it : zipseen) (relativepath : string) : zipseen :=
  {| written := written it; seen := <[relativepath := true]> (seen it) |}.

(** [os.Open(fullpath)]: the file at the path, if there is one. *)
Definition Open (disk : fsys) (fullpath : string) : option node :=
  disk !! fullpath.

(** [func (it zipseen) Add(fullpath, relativepath string) (err error)] *)
Definition Add (env : Env) (disk : fsys) (it : zipseen)
    (fullpath relativepath : string) : option string * zipseen :=
  if is_seen it relativepath then (None, it)
  else
    let marked := <[relativepath := true]> (seen it) in
    match Open disk fullpath with
    | None =>
        (Some ("Could not open: " +:+ quoted fullpath +:+ " -> no such file"),
         {| written := written it; seen := marked |})
    | Some source =>
        match ZipCreate_err env relativepath with
        | Some err =>
            (Some ("Could not create: " +:+ quoted relativepath +:+ " -> " +:+ err),
             {| written := written it; seen := marked |})
        | None =>
            match source, Copy_err env fullpath relativepath with
            | Folder, _ =>
                (Some ("Copy failure: " +:+ quoted fullpath +:+ " -> "
                       +:+ quoted relativepath +:+ " -> is a directory"),
                 {| written := (written it ++ [ {| entry_name := relativepath;
                                                  entry_data := None |} ])%list;
                    seen := marked |})
            | _, Some err =>
                (Some ("Copy failure: " +:+ quoted fullpath +:+ " -> "
                       +:+ quoted relativepath +:+ " -> " +:+ err),
                 {| written := (written it ++ [ {| entry_name := relativepath;
                                                  entry_data := None |} ])%list;
                    seen := marked |})
            | _, None =>
                (None,
                 {| written := (written it ++ [ {| entry_name := relativepath;
                                                  entry_data := Some source |} ])%list;
                    seen := marked |})
            end
        end
    end.

(** What a traversal [fs.Treetop(visitor)] over a zip sink answers: the
    error it returns and the sink after it. *)
Definition zip_visit : Type := Root -> zipseen -> option string * zipseen.

(** Modelled from the spec: [fs.Treetop(ZipIgnore(it, fs, zipper))] marks
    the archive-relative path of every object the catalog refers to as
    seen, without writing. *)
Definition TreetopZipIgnore (cfg : Common) : zip_visit :=
  fun fs zipper =>
    (None,
     fold_left
       (fun sink digest =>
          match Rel (HololibLocation cfg) (ExactLocation cfg digest) with
          | Some relative => Ignore sink relative
          | None => sink
          end)
       (refs fs) zipper).

(** The objects of a list of digests added to the sink, first digest
    first, up to the first error. *)
Fixpoint add_objects (cfg : Common) (env : Env) (disk : fsys)
    (digests : list string) (sink : zipseen) : option string * zipseen :=
  match digests with
  | [] => (None, sink)
  | digest :: rest =>
      let location := ExactLocation cfg digest in
      match Rel (HololibLocation cfg) location with
      | None => (Some ("Relative path error: " +:+ location), sink)
      | Some relative =>
          match Add env disk sink location relative with
          | (Some err, sink') => (Some err, sink')
          | (None, sink') => add_objects cfg env disk rest sink'
          end
      end
  end.

(** Modelled from the spec: [fs.Treetop(ZipRoot(it, fs, zipper))] writes
    each object the catalog refers to under its archive-relative path,
    skipping those already seen. *)
Definition TreetopZipRoot (cfg : Common) (env : Env) (disk : fsys) : zip_visit :=
  fun fs zipper => add_objects cfg env disk (refs fs) zipper.

(** *** Export *)

(** The first loop of [Export], over the known catalogs. *)
Fixpoint export_known (cfg : Common) (env : Env) (disk : fsys)
    (ignore : zip_visit) (known : list string) (zipper : zipseen)
  : outcome unit * zipseen :=
  match known with
  | [] => (Return tt, zipper)
  | name :: rest =>
      let catalog := Join (HololibCatalogLocation cfg) name in
      match NewRoot env "." with
      | (Some err, _) =>
          (Fail ("Could not create root location -> " +:+ err +:+ "."), zipper)
      | (None, fs) =>
          match LoadFrom disk fs catalog with
          | (Some _, _) => export_known cfg env disk ignore rest zipper
          | (None, fs') =>
              match ignore fs' zipper with
              | (Some err, zipper') =>
                  (Fail ("Could not ignore catalog " +:+ catalog +:+ " -> "
                         +:+ err +:+ "."), zipper')
              | (None, zipper') =>
                  export_known cfg env disk ignore rest zipper'
              end
          end
      end
  end.

(** The second loop of [Export], over the catalogs to export; the value
    returned is the flag [exported] after the loop. *)
Fixpoint export_catalogs (cfg : Common) (env : Env) (disk : fsys)
    (root : zip_visit) (catalogs : list string) (zipper : zipseen)
    (exported : bool) : outcome bool * zipseen :=
  match catalogs with
  | [] => (Return exported, zipper)
  | name :: rest =>
      let catalog := Join (HololibCatalogLocation cfg) name in
      match NewRoot env "." with
      | (Some err, _) =>
          (Fail ("Could not create root location -> " +:+ err +:+ "."), zipper)
      | (None, fs) =>
          match LoadFrom disk fs catalog with
          | (Some err, _) =>
              (Fail ("Could not load catalog from " +:+ catalog +:+ " -> "
                     +:+ err +:+ "."), zipper)
          | (None, fs') =>
              match root fs' zipper with
              | (Some err, zipper') =>
                  (Fail ("Could not zip catalog " +:+ catalog +:+ " -> "
                         +:+ err +:+ "."), zipper')
              | (None, zipper') =>
                  match Rel (HololibLocation cfg) catalog with
                  | None =>
                      (Fail "Could not get relative location for catalog -> Rel: cannot make relative.",
                       zipper')
                  | Some relative =>
                      match Add env disk zipper' catalog relative with
                      | (Some err, zipper'') =>
                          (Fail ("Could not add catalog to zip -> " +:+ err +:+ "."),
                           zipper'')
                      | (None, zipper'') =>
                          export_catalogs cfg env disk root rest zipper'' true
                      end
                  end
              end
          end
      end
  end.

(** The error [Export] fails with when nothing was exported. *)
Definition nothing_to_export : string :=
  "None of given catalogs were available for export!".

(** [func (it *hololib) Export(catalogs, known []string, archive string)
    (err error)], with the two traversals it starts as parameters. The
    result is the error returned and the zip writer as [Export] leaves it. *)
Definition Export (cfg : Common) (env : Env) (disk : fsys)
    (ignore root : zip_visit) (catalogs known : list string)
    (archive : string) : outcome unit * zipseen :=
  match Create_err env archive with
  | Some _ =>
      (Fail ("Could not create archive " +:+ quoted archive +:+ "."), new_zipseen)
  | None =>
      let zipper := new_zipseen in
      match export_known cfg env disk ignore known zipper with
      | (Fail msg, zipper') => (Fail msg, zipper')
      | (Panic msg, zipper') => (Panic msg, zipper')
      | (Return _, zipper') =>
          match export_catalogs cfg env disk root catalogs zipper' false with
          | (Fail msg, zipper'') => (Fail msg, zipper'')
          | (Panic msg, zipper'') => (Panic msg, zipper'')
          | (Return exported, zipper'') =>
              if negb exported
              then (Fail nothing_to_export, zipper'')
              else (Return tt, zipper'')
          end
      end
  end.

(** [Export] as the library runs it, with [ZipIgnore] and [ZipRoot]. *)
Definition ExportArchive (cfg : Common) (env : Env) (disk : fsys)
    (catalogs known : list string) (archive : string)
  : outcome unit * zipseen :=
  Export cfg env disk (TreetopZipIgnore cfg) (TreetopZipRoot cfg env disk)
    catalogs known archive.

(** *** What an export is about *)

(** The catalog of the given name as [Export] loads it, if it loads. *)
Definition load_catalog (cfg : Common) (disk : fsys) (name : string) : option Root :=
  match LoadFrom disk (empty_root ".") (Join (HololibCatalogLocation cfg) name) with
  | (None, fs) => Some fs
  | (Some _, _) => None
  end.






(** *** Remove *)

(** [func (it *hololib) Remove(catalogs []string) (err error)]: the file
    system after the call and the error returned. A name that is not a
    file is warned about and skipped. *)
Fixpoint Remove (cfg : Common) (env : Env) (catalogs : list string)
    (disk : fsys) : outcome unit * fsys :=
  match catalogs with
  | [] => (Return tt, disk)
  | name :: rest =>
      let catalog := Join (HololibCatalogLocation cfg) name in
      if negb (IsFile disk catalog) then Remove cfg env rest disk
      else
        match Remove_err env catalog with
        | Some _ =>
            (Fail ("Could not remove catalog " +:+ name +:+ " [filename: "
                   +:+ quoted catalog +:+ "]"), disk)
        | None => Remove cfg env rest (delete catalog disk)
        end
  end.

(** *** Blueprint queries *)

(** [func (it *hololib) queryBlueprint(key string) bool] *)
Definition queryBlueprint (cfg : Common) (env : Env) (disk : fsys)
    (key : string) : bool :=
  let catalog := CatalogPath cfg key in
  if negb (IsFile disk catalog) then false
  else
    let tempdir := Join (ProductTemp cfg) key in
    match NewRoot env tempdir with
    | (Some _, _) => false
    | (None, shadow) =>
        match LoadFrom disk shadow catalog with
        | (Some _, _) => false
        | (None, shadow') =>
            match CatalogCheck_err env disk shadow' with
            | Some _ => false
            | None => IsFile disk catalog
            end
        end
    end.

(** [func (it *hololib) HasBlueprint(blueprint []byte) bool]: the answer
    and the library object after the call (its [queryCache] may have
    grown). *)
Definition HasBlueprint (cfg : Common) (env : Env) (disk : fsys)
    (it : hololib) (blueprint : string) : bool * hololib :=
  let key := BlueprintHash cfg blueprint in
  match queryCache it !! key with
  | Some found => (found, it)
  | None =>
      let found := queryBlueprint cfg env disk key in
      (found,
       {| identity := identity it;
          basedir := basedir it;
          queryCache := <[key := found]> (queryCache it) |})
  end.



(** *** Target directories *)

(** [func (it *hololib) TargetDir(blueprint, controller, space []byte)
    (result string, err error)] *)
Definition TargetDir (cfg : Common) (env : Env) (disk : fsys) (it : hololib)
    (blueprint controller space : string) : outcome string :=
  let key := BlueprintHash cfg blueprint in
  let catalog := CatalogPath cfg key in
  match Stage cfg env it with
  | Panic msg => Panic msg
  | Fail msg => Fail msg
  | Return stage =>
      match NewRoot env stage with
      | (Some err, _) => Fail ("Failed to create stage -> " +:+ err)
      | (None, fs) =>
          let name := ControllerSpaceName cfg controller space in
          match LoadFrom disk fs catalog with
          | (Some _, _) => Return (Join (HolotreeLocation cfg) name)
          | (None, fs') => Return (Join (HolotreeBase env fs') name)
          end
      end
  end.

(** *** Restore *)

(** What a restore does to the world outside its own variables, in the
    order it does it. Timeline marks and the stopwatch are left out; the
    two lines that report the operating mode are kept. *)
Inductive event : Type :=
  | EvMkdirAll (path : string)
  | EvLoadFrom (path : string)
  | EvLockWaitMessage (lockfile : string)
  | EvLocker (lockfile : string) (timeout : Z) (shared acquired : bool)
  | EvRelease (lockfile : string)
  | EvJournal (kind metafile message : string)
  | EvTimeline (message : string)
  | EvDebug (message : string)
  | EvLog (message : string)
  | EvDigestRecorder (metafile : string)
  | EvMakeBranches (targetdir : string)
  | EvRestoreDirectory (targetdir : string)
  | EvBuildDirty (dirtyness : Q)
  | EvSaveAs (path : string)
  | EvTouchWhen (path : string)
  | EvForceTouchWhen (path : string).

(** The world a restore runs in: the file system and what happened so
    far, oldest event first. *)
Record world : Type := {
  disk_of : fsys;
  trace_of : list event;
}.

(** A step of a restore: it reads and changes the world, and returns,
    fails or panics. *)
Definition M (A : Type) : Type := world -> outcome A * world.

Definition ret {A} (a : A) : M A := fun w => (Return a, w).

Definition bind {A B} (m : M A) (k : A -> M B) : M B :=
  fun w =>
    match m w with
    | (Return a, w') => k a w'
    | (Fail msg, w') => (Fail msg, w')
    | (Panic msg, w') => (Panic msg, w')
    end.

Declare Scope restore_scope.
Delimit Scope restore_scope with restore.
Notation "x <- m ;; k" := (bind m (fun x => k))
  (at level 100, m at next level, right associativity) : restore_scope.
Notation "m ;;; k" := (bind m (fun _ => k))
  (at level 100, right associativity) : restore_scope.

(** An effect on the world outside is recorded. *)
Definition emit (ev : event) : M unit :=
  fun w => (Return tt, {| disk_of := disk_of w; trace_of := trace_of w ++ [ev] |}).

(** [fail.On(err != nil, form, ...)]: with an error at hand the function
    is left with the formatted message as its error. *)
Definition fail_On (err : option string) (message : string -> string) : M unit :=
  fun w =>
    match err with
    | Some e => (Fail (message e), w)
    | None => (Return tt, w)
    end.

(** [defer cleanup()]: [cleanup] runs when the rest of the function is
    left, whatever the outcome. *)
Definition deferred {A} (cleanup : M unit) (body : M A) : M A :=
  fun w =>
    match body w with
    | (result, w') => (result, snd (cleanup w'))
    end.

(** [it.Stage()] inside a restore. *)
Definition stage_dir (cfg : Common) (env : Env) (it : hololib) : M string :=
  fun w =>
    let stage := Join (HolotreeLocation cfg) (Identity cfg it) in
    let w' := {| disk_of := disk_of w; trace_of := trace_of w ++ [EvMkdirAll stage] |} in
    match MkdirAll_err env stage with
    | Some err => (Panic err, w')
    | None => (Return stage, w')
    end.

(** [err = fs.LoadFrom(path)] inside a restore. *)
Definition load_from (fs : Root) (path : string) : M (option string * Root) :=
  fun w =>
    (Return (LoadFrom (disk_of w) fs path),
     {| disk_of := disk_of w; trace_of := trace_of w ++ [EvLoadFrom path] |}).

(** [pathlib.Locker(lockfile, timeout, shared)] *)
Definition locker (env : Env) (lockfile : string) (timeout : Z) (shared : bool)
  : M (option string) :=
  fun w =>
    let err := Locker_err env lockfile timeout shared in
    (Return err,
     {| disk_of := disk_of w;
        trace_of := trace_of w ++ [EvLocker lockfile timeout shared (bool_decide (err = None))] |}).

(** [err = fs.AllDirs(RestoreDirectory(it, fs, currentstate, score))]:
    the error and the counters after the traversal. *)
Definition restore_directories (env : Env) (fs : Root) (targetdir : string)
    (currentstate : gmap string string) : M (option string * Stats.stats) :=
  fun w =>
    (Return (RestoreDirectory_err env (disk_of w) fs currentstate,
             RestoreDirectory_score env (disk_of w) fs currentstate),
     {| disk_of := disk_of w; trace_of := trace_of w ++ [EvRestoreDirectory targetdir] |}).

(** [score.Dirtyness()] inside a restore: the division by zero is a panic. *)
Definition score_dirtyness (score : Stats.stats) : M Q :=
  fun w =>
    match Stats.Dirtyness score with
    | Some q => (Return q, w)
    | None => (Panic "runtime error: integer divide by zero", w)
    end.

(** [err = fs.SaveAs(path)]: on success the path holds the catalog. *)
Definition save_as (env : Env) (fs : Root) (path : string) : M (option string) :=
  fun w =>
    match SaveAs_err env path fs with
    | Some err => (Return (Some err), w)
    | None =>
        (Return None,
         {| disk_of := <[path := CatalogFile fs]> (disk_of w);
            trace_of := trace_of w ++ [EvSaveAs path] |})
    end.

(** [pathlib.FileExist(path)] inside a restore. *)
Definition file_exist (path : string) : M bool :=
  fun w => (Return (FileExist (disk_of w) path), w).

(** The three operating modes of a restore, as [RestoreTo] words them. *)
Definition mode_new (key : string) : string :=
  "new space for " +:+ quoted key.

Definition mode_cleaned (key : string) : string :=
  "cleaned up space for " +:+ quoted key.

Definition mode_converted (previous key : string) : string :=
  "coverted space from " +:+ quoted previous +:+ " to " +:+ quoted key.

(** The operating mode [RestoreTo] settles on. [shadow] is the outcome of
    [NewRoot(targetdir)] followed, when that worked, by
    [shadow.LoadFrom(metafile)]. *)
Definition operating_mode (key : string) (shadow : option string * Root) : string :=
  match shadow with
  | (Some _, _) => mode_new key
  | (None, loaded) =>
      if String.eqb key (Blueprint loaded)
      then mode_cleaned key
      else mode_converted (Blueprint loaded) key
  end.

(** Modelled from the spec: [common.HololibUsageLocation()], the
    directory [used] below the hololib root. *)
Definition HololibUsageLocation (cfg : Common) : string :=
  Join (HololibLocation cfg) "used".

(** [func touchUsedHash(hash string)] *)
Definition touchUsedHash (cfg : Common) (hash : string) : M unit :=
  let filename := hash +:+ "." +:+ UserHomeIdentity cfg in
  emit (EvForceTouchWhen (Join (HololibUsageLocation cfg) filename)).

(** What [RestoreTo] takes as the state of the target: the digests
    [DigestRecorder] reads off the previous meta-catalog, or nothing
    without one. *)
Definition current_state (env : Env) (shadow : option string * Root)
  : gmap string string :=
  match shadow with
  | (None, loaded) => DigestRecorder env loaded
  | (Some _, _) => ∅
  end.

(** [fs.Controller = controller; fs.Space = space] *)
Definition stamped (fs : Root) (controller space : string) : Root :=
  {| Blueprint := Blueprint fs; RootPlatform := RootPlatform fs;
     Controller := controller; Space := space;
     Path := Path fs; Tree := Tree fs |}.

Local Open Scope restore_scope.

(** The file operations of [RestoreTo], from [fs.Relocate(targetdir)] to
    [return targetdir, nil]. [fs] is the catalog as loaded,
    [currentstate] what the previous meta-catalog recorded. *)
Definition restore_files (cfg : Common) (env : Env) (key catalog : string)
    (fs : Root) (targetdir : string) (currentstate : gmap string string)
    (controller space : string) (partial : bool) : M string :=
  let metafile := targetdir +:+ ".meta" in
  fail_On (Relocate_err env fs targetdir)
    (fun e => "Failed to relocate " +:+ targetdir +:+ " -> " +:+ e) ;;;
  let fs := Relocated env fs targetdir in
  emit (EvMakeBranches targetdir) ;;;
  fail_On (MakeBranches_err env fs)
    (fun e => "Failed to make branches -> " +:+ e) ;;;
  restored <- restore_directories env fs targetdir currentstate ;;
  let '(err, score) := restored in
  fail_On err (fun e => "Failed to restore directories -> " +:+ e) ;;;
  dirtyness <- score_dirtyness score ;;
  emit (EvBuildDirty dirtyness) ;;;
  let fs := stamped fs controller space in
  err <- save_as env fs metafile ;;
  fail_On err (fun e => "Failed to save metafile " +:+ quoted metafile +:+ " -> " +:+ e) ;;;
  emit (EvTouchWhen catalog) ;;;
  let planfile := Join targetdir "rcc_plan.log" in
  planned <- file_exist planfile ;;
  (if negb partial && planned
   then emit (EvLog ("Installation plan is: " +:+ planfile))
   else ret tt) ;;;
  let identityfile := Join targetdir "identity.yaml" in
  identified <- file_exist identityfile ;;
  (if negb partial && identified
   then emit (EvLog ("Environment configuration descriptor is: " +:+ identityfile))
   else ret tt) ;;;
  touchUsedHash cfg key ;;;
  ret targetdir.

(** The part of [RestoreTo] that runs with the lock held, from
    [journal.Post] on: the previous meta-catalog is looked at, the
    operating mode reported, and the files restored. *)
Definition restore_locked (cfg : Common) (env : Env) (key catalog : string)
    (fs : Root) (targetdir : string) (controller space : string)
    (partial : bool) : M string :=
  let metafile := targetdir +:+ ".meta" in
  emit (EvJournal "space-used" metafile
          ("normal holotree with blueprint " +:+ key +:+ " from " +:+ catalog)) ;;;
  shadow <- (let '(err, shadow) := NewRoot env targetdir in
             match err with
             | None => load_from shadow metafile
             | Some _ => ret (err, shadow)
             end) ;;
  let mode := operating_mode key shadow in
  (match shadow with
   | (None, _) => emit (EvDigestRecorder metafile)
   | (Some _, _) => ret tt
   end) ;;;
  let currentstate := current_state env shadow in
  emit (EvTimeline ("mode: " +:+ mode)) ;;;
  emit (EvDebug ("Holotree operating mode is: " +:+ mode)) ;;;
  restore_files cfg env key catalog fs targetdir currentstate controller space partial.

(** [func (it *hololib) RestoreTo(blueprint []byte, label, controller,
    space string, partial bool) (result string, err error)] *)
Definition RestoreTo (cfg : Common) (env : Env) (it : hololib)
    (blueprint label controller space : string) (partial : bool) : M string :=
  let key := BlueprintHash cfg blueprint in
  let catalog := CatalogPath cfg key in
  stage <- stage_dir cfg env it ;;
  let '(err, fs) := NewRoot env stage in
  fail_On err (fun e => "Failed to create stage -> " +:+ e) ;;;
  loaded <- load_from fs catalog ;;
  let '(err, fs) := loaded in
  fail_On err (fun e => "Failed to load catalog " +:+ catalog +:+ " -> " +:+ e) ;;;
  let targetdir := Join (HolotreeBase env fs) label in
  let lockfile := targetdir +:+ ".lck" in
  emit (EvLockWaitMessage lockfile) ;;;
  err <- locker env lockfile 30000 (SharedHolotree cfg) ;;
  fail_On err (fun _ => "Could not get lock for " +:+ targetdir +:+ ". Quiting.") ;;;
  deferred (emit (EvRelease lockfile))
    (restore_locked cfg env key catalog fs targetdir controller space partial).

(** [func (it *hololib) Restore(blueprint, client, tag []byte)
    (result string, err error)] *)
Definition Restore (cfg : Common) (env : Env) (it : hololib)
    (blueprint client tag : string) : M string :=
  RestoreTo cfg env it blueprint (ControllerSpaceName cfg client tag) client tag false.

Local Close Scope restore_scope.

(** *** What a restore is about *)

(** The stage directory of the library object. *)
Definition restore_stage (cfg : Common) (it : hololib) : string :=
  Join (HolotreeLocation cfg) (Identity cfg it).

(** The catalog [RestoreTo] loads for a blueprint, with its path. *)
Definition restore_catalog (cfg : Common) (disk : fsys) (it : hololib)
    (blueprint : string) : option string * Root :=
  LoadFrom disk (empty_root (restore_stage cfg it))
    (CatalogPath cfg (BlueprintHash cfg blueprint)).

(** The previous meta-catalog of a target as [RestoreTo] finds it: the
    outcome of [NewRoot(targetdir)] and, when that worked, of
    [shadow.LoadFrom(metafile)]. *)
Definition previous_meta (env : Env) (disk : fsys) (targetdir : string)
  : option string * Root :=
  match NewRoot env targetdir with
  | (None, shadow) => LoadFrom disk shadow (targetdir +:+ ".meta")
  | (Some err, shadow) => (Some err, shadow)
  end.

(** The world after some more events. *)
Definition after (w : world) (events : list event) : world :=
  {| disk_of := disk_of w; trace_of := (trace_of w ++ events)%list |}.

(** The events that change the target directory or its meta-catalog. *)
Definition modifies_target (ev : event) : bool :=
  match ev with
  | EvMakeBranches _ | EvRestoreDirectory _ | EvSaveAs _ => true
  | _ => false
  end.

(** The events of the lock. *)
Definition is_lock_event (ev : event) : bool :=
  match ev with
  | EvLocker _ _ _ _ | EvRelease _ => true
  | _ => false
  end.

(** The events that change who holds a lock: an acquisition and a
    release. *)
Definition lock_change (ev : event) : bool :=
  match ev with
  | EvLocker _ _ _ true | EvRelease _ => true
  | _ => false
  end.

(** The events on one target: its branches, its files, its meta-catalog. *)
Definition touches (targetdir : string) (ev : event) : Prop :=
  ev = EvMakeBranches targetdir \/
  ev = EvRestoreDirectory targetdir \/
  ev = EvSaveAs (targetdir +:+ ".meta").

(** *** Restores side by side

    Several restores run as processes of their own. A schedule lists
    their events in the order they happen, each with the number of the
    process it belongs to. *)
Abbreviation schedule := (list (nat * event)).

(** The events of one process. *)
Definition project (p : nat) (s : schedule) : list event :=
  snd <$> filter (fun step => fst step = p) s.

(** Who holds the lock file after one more event: a process that
    acquires it holds it, until that process releases it. *)
Definition lock_step (lockfile : string) (holder : option nat)
    (step : nat * event) : option nat :=
  match step with
  | (p, EvLocker file _ _ true) =>
      if decide (file = lockfile) then Some p else holder
  | (p, EvRelease file) =>
      if decide (file = lockfile /\ holder = Some p) then None else holder
  | _ => holder
  end.

(** Who holds the lock file after a schedule. *)
Definition holder (lockfile : string) (s : schedule) : option nat :=
  fold_left (lock_step lockfile) s None.

(** Modelled from the spec: [pathlib.Locker] serializes the restores of
    a target, a lock file is acquired only while no process holds it. *)
Definition exclusive (lockfile : string) (s : schedule) : Prop :=
  forall before p timeout shared rest,
    s = (before ++ (p, EvLocker lockfile timeout shared true) :: rest)%list ->
    holder lockfile before = None.

(** A process operates under the lock: it acquired the lock file and has
    not released it since. *)
Definition operating (lockfile : string) (events : list event) : Prop :=
  exists before timeout shared body,
    events = (before ++ EvLocker lockfile timeout shared true :: body)%list /\
    Forall (fun ev => lock_change ev = false) body.

(** The events are those of one call of [RestoreTo] whose target, once
    the catalog is loaded, is [targetdir]. *)
Definition restores (targetdir : string) (events : list event) : Prop :=
  exists (cfg : Common) (env : Env) (it : hololib)
         (blueprint label controller space : string) (partial : bool)
         (disk : fsys),
    events
    = trace_of (snd (RestoreTo cfg env it blueprint label controller space partial
                       {| disk_of := disk; trace_of := [] |})) /\
    forall fs, restore_catalog cfg disk it blueprint = (None, fs) ->
               Join (HolotreeBase env fs) label = targetdir.

End Htfs.


(** ** A small installation

    Two catalogs in the hololib of one user: [K1] refers to the objects
    [o1], [o2] and [o3], [K2] to [o2], [o3] and [o4]. Every call to the
    operating system succeeds. *)
Module Sample.

Import Paths Htfs.
Local Open Scope string_scope.

Definition cfg : Common :=
  {| HololibLocation := "/opt/ht/hololib";
     HolotreeLocation := "/opt/ht/holotree";
     ProductTemp := "/tmp/rcc";
     Platform := "linux_amd64";
     UserHomeIdentity := "1a2b3c4";
     SharedHolotree := false;
     BlueprintHash := fun blueprint => blueprint;
     Sipit := fun text => Z.of_nat (String.length text);
     Textual := fun number size => substring 0 (Z.to_nat size) (hex016 number) |}.

Definition env : Env :=
  {| MkdirAll_err := fun _ => None;
     NewRoot_err := fun _ => None;
     Create_err := fun _ => None;
     ZipCreate_err := fun _ => None;
     Copy_err := fun _ _ => None;
     Remove_err := fun _ => None;
     CatalogCheck_err := fun _ _ => None;
     HolotreeBase := fun _ => "/opt/ht/holotree";
     Locker_err := fun _ _ _ => None;
     DigestRecorder := fun _ => ∅;
     Relocate_err := fun _ _ => None;
     Relocated := fun fs _ => fs;
     MakeBranches_err := fun _ => None;
     RestoreDirectory_err := fun _ _ _ => None;
     RestoreDirectory_score := fun _ fs _ =>
       Stats.count_all (map (fun _ => Stats.OpDirty true) (refs fs)) Stats.zero;
     SaveAs_err := fun _ _ => None |}.

Definition o1 : string := "0a1b2c3d4e5f60718293a4b5c6d7e8f9".
Definition o2 : string := "1b2c3d4e5f60718293a4b5c6d7e8f90a".
Definition o3 : string := "2c3d4e5f60718293a4b5c6d7e8f90a1b".
Definition o4 : string := "3d4e5f60718293a4b5c6d7e8f90a1b2c".

Definition file (name digest : string) : File :=
  {| file_name := name; Digest := digest; file_mode := 420; file_size := 5 |}.

Definition key1 : string := "aaaa1111bbbb2222".
Definition key2 : string := "cccc3333dddd4444".

Definition K1 : Root :=
  {| Blueprint := key1; RootPlatform := "linux_amd64";
     Controller := ""; Space := ""; Path := "/opt/ht/holotree/stage";
     Tree := MkDir "" [MkDir "a" [] [file "x.txt" o1; file "y.txt" o2]]
                      [file "z.txt" o3] |}.

Definition K2 : Root :=
  {| Blueprint := key2; RootPlatform := "linux_amd64";
     Controller := ""; Space := ""; Path := "/opt/ht/holotree/stage";
     Tree := MkDir "" [MkDir "a" [] [file "x.txt" o4; file "y.txt" o2]]
                      [file "z.txt" o3] |}.

Definition disk : gmap string node :=
  list_to_map
    [ (CatalogPath cfg key1, CatalogFile K1);
      (CatalogPath cfg key2, CatalogFile K2);
      (ExactLocation cfg o1, PlainFile "one");
      (ExactLocation cfg o2, PlainFile "two");
      (ExactLocation cfg o3, PlainFile "three");
      (ExactLocation cfg o4, PlainFile "four") ].

(** The library object [New] returns. *)
Definition lib : hololib :=
  {| identity := 81985529216486895; basedir := "/home/user/.robocorp";
     queryCache := ∅ |}.

(** The same installation with the lock of every target held elsewhere. *)
Definition env_locked : Env :=
  {| MkdirAll_err := MkdirAll_err env;
     NewRoot_err := NewRoot_err env;
     Create_err := Create_err env;
     ZipCreate_err := ZipCreate_err env;
     Copy_err := Copy_err env;
     Remove_err := Remove_err env;
     CatalogCheck_err := CatalogCheck_err env;
     HolotreeBase := HolotreeBase env;
     Locker_err := fun _ _ _ => Some "lock timeout";
     DigestRecorder := DigestRecorder env;
     Relocate_err := Relocate_err env;
     Relocated := Relocated env;
     MakeBranches_err := MakeBranches_err env;
     RestoreDirectory_err := RestoreDirectory_err env;
     RestoreDirectory_score := RestoreDirectory_score env;
     SaveAs_err := SaveAs_err env |}.


(** The target of the restores below, with its meta-catalog. *)
Definition target : string := "/opt/ht/holotree/space1".

(** The world before any restore, and one in which the meta-catalog of
    the target is a file that does not decode. *)
Definition world0 : world := {| disk_of := disk; trace_of := [] |}.


(** Two restores of the target side by side: process 0 gets the lock,
    process 1 asks for it while process 0 holds it and gives up. *)
Definition winner : list event :=
  trace_of (snd (RestoreTo cfg env lib key1 "space1" "user" "space" false world0)).

Definition loser : list event :=
  trace_of (snd (RestoreTo cfg env_locked lib key1 "space1" "user" "space" false world0)).

Definition side_by_side : schedule :=
  (((fun ev => (0%nat, ev)) <$> take 5 winner)
   ++ ((fun ev => (1%nat, ev)) <$> loser)
   ++ ((fun ev => (0%nat, ev)) <$> drop 5 winner))%list.

End Sample.


(** * Properties *)

(** ** The [stats] counters *)
Module StatsFacts.

Import Stats.

Lemma uint64_mod_pos : 0 < uint64_mod.
Proof. reflexivity. Qed.

Lemma wrap64_small (z : Z) : in_uint64 z -> wrap64 z = z.
Proof. intros Hz. unfold wrap64. apply Z.mod_small. exact Hz. Qed.

Lemma wrap64_range (z : Z) : in_uint64 (wrap64 z).
Proof. unfold wrap64, in_uint64. apply Z.mod_pos_bound, uint64_mod_pos. Qed.

Lemma wrap64_add_l (a b : Z) : wrap64 (wrap64 a + b) = wrap64 (a + b).
Proof. unfold wrap64. apply Z.add_mod_idemp_l. discriminate. Qed.

Lemma total_count (op : count_op) (it : stats) :
  total (count op it) = wrap64 (total it + 1).
Proof. destruct op; reflexivity. Qed.

Lemma well_formed_zero : well_formed zero.
Proof. unfold well_formed, in_uint64, zero; simpl. repeat split; done. Qed.

Lemma well_formed_count (op : count_op) (it : stats) :
  well_formed it -> well_formed (count op it).
Proof.
  intros (Ht & Hd & Hl & Hp).
  destruct op as [| |[|]]; unfold well_formed; simpl;
    (split; [|split; [|split]]); first [apply wrap64_range | assumption].
Qed.

Lemma well_formed_count_all (ops : list count_op) (it : stats) :
  well_formed it -> well_formed (count_all ops it).
Proof.
  revert it. induction ops as [|op ops IH]; intros it Hwf; simpl.
  - exact Hwf.
  - apply IH, well_formed_count, Hwf.
Qed.

(** The total after a run counts the calls, modulo [2^64]. *)
Lemma total_count_all (ops : list count_op) (it : stats) :
  in_uint64 (total it) ->
  total (count_all ops it) = wrap64 (total it + Z.of_nat (length ops)).
Proof.
  revert it. induction ops as [|op ops IH]; intros it Hin.
  - simpl. rewrite Z.add_0_r. symmetry. apply wrap64_small, Hin.
  - change (count_all (op :: ops) it) with (count_all ops (count op it)).
    rewrite IH; rewrite total_count; [|apply wrap64_range].
    rewrite wrap64_add_l. f_equal. rewrite length_cons. lia.
Qed.

Lemma Dirtyness_None (it : stats) : Dirtyness it = None <-> total it = 0.
Proof.
  unfold Dirtyness, dirtyness_tenths.
  destruct (Z.eqb_spec (total it) 0) as [H0|Hn]; split; intros H; try done.
Qed.

Lemma Dirtyness_Some (it : stats) :
  total it <> 0 ->
  Dirtyness it = Some (Qmake (wrap64 (1000 * dirty it) / total it) 10).
Proof.
  intros Hn. unfold Dirtyness, dirtyness_tenths.
  destruct (Z.eqb_spec (total it) 0); [contradiction | reflexivity].
Qed.




(** C10. [Dirtyness] returns a value exactly when [total > 0]; with
    [total = 0] the integer division by zero leaves it without one. Each
    of [Duplicate], [Link] and [Dirty] adds one to [total] (as [uint64]
    addition does), so after a run of at least one counting call (and
    fewer than [2^64] of them) on fresh counters [total > 0] and
    [Dirtyness] returns; on fresh counters it does not. *)
Theorem Dirtyness_defined_iff_total_positive (it : stats) :
  well_formed it ->
  (is_Some (Dirtyness it) <-> 0 < total it) /\
  (total it = 0 -> Dirtyness it = None) /\
  (forall op : count_op, total (count op it) = wrap64 (total it + 1)) /\
  (forall op : count_op,
     total it + 1 < uint64_mod ->
     total (count op it) = total it + 1 /\ is_Some (Dirtyness (count op it))) /\
  Dirtyness zero = None /\
  (forall ops : list count_op,
     ops <> [] ->
     Z.of_nat (length ops) < uint64_mod ->
     total (count_all ops zero) = Z.of_nat (length ops) /\
     0 < total (count_all ops zero) /\
     is_Some (Dirtyness (count_all ops zero))).
Proof.
  intros (Ht & _).
  assert (Hsome : forall s : stats, 0 < total s -> is_Some (Dirtyness s)).
  { intros s Hs. rewrite Dirtyness_Some by lia. eexists; reflexivity. }
  split; [|split; [|split; [|split; [|split]]]].
  - split.
    + intros [q Hq]. destruct (Z.eq_dec (total it) 0) as [H0|Hn].
      * apply Dirtyness_None in H0. congruence.
      * unfold in_uint64 in Ht. lia.
    + apply Hsome.
  - apply Dirtyness_None.
  - intros op. apply total_count.
  - intros op Hfit.
    assert (Hstep : total (count op it) = total it + 1).
    { rewrite total_count. apply wrap64_small. unfold in_uint64 in *. lia. }
    split; [exact Hstep|]. apply Hsome. unfold in_uint64 in Ht. lia.
  - reflexivity.
  - intros ops Hne Hlen.
    assert (Hn : 0 < Z.of_nat (length ops)).
    { destruct ops; [contradiction | simpl; lia]. }
    assert (Htot : total (count_all ops zero) = Z.of_nat (length ops)).
    { rewrite total_count_all by apply well_formed_zero. simpl.
      apply wrap64_small. unfold in_uint64. lia. }
    split; [exact Htot|]. split; [lia|]. apply Hsome. lia.
Qed.

Lemma Dirtyness_defined_iff_total_positive_witness :
  Dirtyness zero = None /\
  total (count_all [OpDirty true; OpLink; OpDuplicate] zero) = 3 /\
  is_Some (Dirtyness (count_all [OpDirty true; OpLink; OpDuplicate] zero)).
Proof.
  destruct (Dirtyness_defined_iff_total_positive zero well_formed_zero)
    as (_ & _ & _ & _ & Hzero & Hrun).
  destruct (Hrun [OpDirty true; OpLink; OpDuplicate]) as (Htot & _ & Hsome).
  - discriminate.
  - unfold uint64_mod; simpl. lia.
  - split; [exact Hzero|]. split; [exact Htot | exact Hsome].
Defined.

End StatsFacts.


(** ** Blueprint queries and target directories *)
Module QueryFacts.

Import Paths Htfs.
Local Open Scope string_scope.

Section Queries.

Variable cfg : Common.

(** The catalog file [queryBlueprint] looks at. *)
Lemma queryBlueprint_true (env : Env) (disk : fsys) (key : string) :
  queryBlueprint cfg env disk key = true <->
  IsFile disk (CatalogPath cfg key) = true /\
  NewRoot_err env (Join (ProductTemp cfg) key) = None /\
  exists shadow : Root,
    LoadFrom disk (empty_root (Join (ProductTemp cfg) key)) (CatalogPath cfg key)
      = (None, shadow) /\
    CatalogCheck_err env disk shadow = None.
Proof.
  unfold queryBlueprint, NewRoot.
  destruct (IsFile disk (CatalogPath cfg key)) eqn:Hfile; simpl.
  2: { split; [discriminate | intros (H & _); discriminate]. }
  destruct (NewRoot_err env (Join (ProductTemp cfg) key)) as [e|] eqn:Hroot.
  { split; [discriminate | intros (_ & H & _); discriminate]. }
  destruct (LoadFrom disk _ (CatalogPath cfg key)) as [[e|] shadow] eqn:Hload.
  { split; [discriminate | intros (_ & _ & s & H & _); discriminate]. }
  destruct (CatalogCheck_err env disk shadow) as [e|] eqn:Hcheck.
  - split; [discriminate|]. intros (_ & _ & s & Hs & Hc).
    injection Hs as <-. congruence.
  - split; [|reflexivity]. intros _. repeat split. exists shadow. done.
Qed.

(** A blueprint whose key the cache does not hold is looked up on disk. *)
Lemma HasBlueprint_miss (env : Env) (disk : fsys) (it : hololib) (blueprint : string) :
  queryCache it !! BlueprintHash cfg blueprint = None ->
  fst (HasBlueprint cfg env disk it blueprint)
    = queryBlueprint cfg env disk (BlueprintHash cfg blueprint).
Proof. intros Hmiss. unfold HasBlueprint. rewrite Hmiss. reflexivity. Qed.




(** C7, as amended. For every blueprint whose key is not yet in the
    [queryCache] of the library object: when the catalog file is missing,
    fails to deserialize, or fails the content check, [HasBlueprint]
    returns false (its result is a plain boolean, no error surfaces); and
    it returns true only when the catalog file exists, loads and passes
    its content check. *)
Theorem HasBlueprint_fresh_key (env : Env) (disk : fsys) (it : hololib)
    (blueprint : string) :
  queryCache it !! BlueprintHash cfg blueprint = None ->
  let key := BlueprintHash cfg blueprint in
  let catalog := CatalogPath cfg key in
  let tempdir := Join (ProductTemp cfg) key in
  let answer := fst (HasBlueprint cfg env disk it blueprint) in
  (IsFile disk catalog = false -> answer = false) /\
  (fst (LoadFrom disk (empty_root tempdir) catalog) <> None -> answer = false) /\
  (forall shadow : Root,
     LoadFrom disk (empty_root tempdir) catalog = (None, shadow) ->
     CatalogCheck_err env disk shadow <> None ->
     answer = false) /\
  (answer = true ->
   IsFile disk catalog = true /\
   exists shadow : Root,
     LoadFrom disk (empty_root tempdir) catalog = (None, shadow) /\
     CatalogCheck_err env disk shadow = None).
Proof.
  intros Hmiss key catalog tempdir answer.
  assert (Hanswer : answer = queryBlueprint cfg env disk key).
  { apply HasBlueprint_miss, Hmiss. }
  assert (Hfalse : forall P : Prop,
            (queryBlueprint cfg env disk key = true -> ~ P) -> P -> answer = false).
  { intros P Hno HP. rewrite Hanswer.
    destruct (queryBlueprint cfg env disk key) eqn:Hq; [|reflexivity].
    exfalso. exact (Hno eq_refl HP). }
  split; [|split; [|split]].
  - apply Hfalse. intros Hq Hfile.
    apply queryBlueprint_true in Hq as (Hq & _). fold key catalog in Hq. congruence.
  - apply Hfalse. intros Hq Hload.
    apply queryBlueprint_true in Hq as (_ & _ & shadow & Hs & _).
    fold key catalog tempdir in Hs. rewrite Hs in Hload. contradiction.
  - intros shadow Hshadow. apply Hfalse. intros Hq Hcheck.
    apply queryBlueprint_true in Hq as (_ & _ & loaded & Hs & Hc).
    fold key catalog tempdir in Hs. rewrite Hshadow in Hs.
    injection Hs as ->. contradiction.
  - rewrite Hanswer. intros Hq.
    apply queryBlueprint_true in Hq as (Hfile & _ & shadow & Hs & Hc).
    split; [exact Hfile|]. exists shadow. split; [exact Hs | exact Hc].
Qed.


(** C8. For every blueprint whose catalog cannot be loaded, [TargetDir]
    returns [HolotreeLocation()/ControllerSpaceName(controller, space)]
    with a nil error once the stage root is there; it returns an error
    only when [NewRoot] on the stage fails, and leaves without a path
    only when creating the stage directory or the stage root fails. *)
Theorem TargetDir_missing_catalog (env : Env) (disk : fsys) (it : hololib)
    (blueprint controller space : string) :
  let catalog := CatalogPath cfg (BlueprintHash cfg blueprint) in
  let stage := Join (HolotreeLocation cfg) (Identity cfg it) in
  let result := TargetDir cfg env disk it blueprint controller space in
  fst (LoadFrom disk (empty_root stage) catalog) <> None ->
  (MkdirAll_err env stage = None ->
   NewRoot_err env stage = None ->
   result = Return (Join (HolotreeLocation cfg)
                         (ControllerSpaceName cfg controller space))) /\
  (forall msg : string, result = Fail msg -> NewRoot_err env stage <> None) /\
  (returned result = false ->
   MkdirAll_err env stage <> None \/ NewRoot_err env stage <> None).
Proof.
  intros catalog stage result Hload. subst result.
  unfold TargetDir, Stage, NewRoot. fold stage catalog.
  destruct (MkdirAll_err env stage) as [e|] eqn:Hmk; simpl.
  { split; [discriminate|]. split; [discriminate|]. intros _. left. discriminate. }
  destruct (NewRoot_err env stage) as [e|] eqn:Hroot.
  { split; [discriminate|]. split; [intros _ _; discriminate|].
    intros _. right. discriminate. }
  destruct (LoadFrom disk (empty_root stage) catalog) as [[e|] fs] eqn:Hl.
  - split; [reflexivity|]. split; discriminate.
  - simpl in Hload. contradiction.
Qed.

End Queries.

Import Sample.

Lemma HasBlueprint_fresh_key_witness :
  fst (HasBlueprint cfg env disk lib "ffff0000") = false /\
  fst (HasBlueprint cfg env disk lib key1) = true.
Proof.
  destruct (HasBlueprint_fresh_key cfg env disk lib "ffff0000" eq_refl)
    as (Hmissing & _).
  split; [apply Hmissing|]; vm_compute; reflexivity.
Defined.

(** C7, as stated, fails: a key the cache holds is answered from the
    cache. After a first query found the catalog of [key1] and [Remove]
    deleted it, the catalog file is missing and [HasBlueprint] still
    returns true. *)
Lemma HasBlueprint_stale_true :
  let it1 := snd (HasBlueprint cfg env disk lib key1) in
  let disk1 := snd (Remove cfg env [CatalogName cfg key1] disk) in
  IsFile disk (CatalogPath cfg key1) = true /\
  IsFile disk1 (CatalogPath cfg key1) = false /\
  queryBlueprint cfg env disk1 key1 = false /\
  fst (HasBlueprint cfg env disk1 it1 key1) = true.
Proof. vm_compute. repeat split. Qed.


Lemma TargetDir_missing_catalog_witness :
  TargetDir cfg env disk lib "ffff0000" "user" "space"
    = Return "/opt/ht/holotree/1a2b3c4_0000000_00000000".
Proof.
  destruct (TargetDir_missing_catalog cfg env disk lib "ffff0000" "user" "space")
    as (Hpath & _).
  - vm_compute. discriminate.
  - rewrite Hpath by reflexivity. vm_compute. reflexivity.
Defined.

End QueryFacts.


(** ** Paths *)
Module PathFacts.

Import Paths Htfs.
Local Open Scope string_scope.


Lemma app_cons (c : ascii) (a b : string) :
  String c a +:+ b = String c (a +:+ b).
Proof. reflexivity. Qed.

Lemma app_assoc (a b c : string) : (a +:+ b) +:+ c = a +:+ (b +:+ c).
Proof.
  induction a as [|ch a IH]; [reflexivity|].
  rewrite !app_cons. f_equal. exact IH.
Qed.

Lemma length_app (a b : string) :
  String.length (a +:+ b) = (String.length a + String.length b)%nat.
Proof.
  induction a as [|ch a IH]; [reflexivity|].
  rewrite app_cons. simpl. by rewrite IH.
Qed.








Section Locations.

Variable cfg : Common.






End Locations.

End PathFacts.


(** ** Export *)
Module ExportFacts.

Import Paths Htfs PathFacts.
Local Open Scope string_scope.

(** *** The zip writer *)








(** *** The traversals *)

Section Traversals.

Variables (cfg : Common) (env : Env) (disk : fsys).






Lemma export_known_cons (ignore : zip_visit) (name : string)
    (rest : list string) (it : zipseen) :
  export_known cfg env disk ignore (name :: rest) it
  = match NewRoot env "." with
    | (Some err, _) =>
        (Fail ("Could not create root location -> " +:+ err +:+ "."), it)
    | (None, fs) =>
        match LoadFrom disk fs (Join (HololibCatalogLocation cfg) name) with
        | (Some _, _) => export_known cfg env disk ignore rest it
        | (None, fs') =>
            match ignore fs' it with
            | (Some err, it') =>
                (Fail ("Could not ignore catalog "
                       +:+ Join (HololibCatalogLocation cfg) name +:+ " -> "
                       +:+ err +:+ "."), it')
            | (None, it') => export_known cfg env disk ignore rest it'
            end
        end
    end.
Proof. reflexivity. Qed.


Lemma export_catalogs_cons (root : zip_visit) (name : string)
    (rest : list string) (it : zipseen) (exported : bool) :
  export_catalogs cfg env disk root (name :: rest) it exported
  = match NewRoot env "." with
    | (Some err, _) =>
        (Fail ("Could not create root location -> " +:+ err +:+ "."), it)
    | (None, fs) =>
        match LoadFrom disk fs (Join (HololibCatalogLocation cfg) name) with
        | (Some err, _) =>
            (Fail ("Could not load catalog from "
                   +:+ Join (HololibCatalogLocation cfg) name +:+ " -> "
                   +:+ err +:+ "."), it)
        | (None, fs') =>
            match root fs' it with
            | (Some err, it') =>
                (Fail ("Could not zip catalog "
                       +:+ Join (HololibCatalogLocation cfg) name +:+ " -> "
                       +:+ err +:+ "."), it')
            | (None, it') =>
                match Rel (HololibLocation cfg)
                        (Join (HololibCatalogLocation cfg) name) with
                | None =>
                    (Fail "Could not get relative location for catalog -> Rel: cannot make relative.",
                     it')
                | Some relative =>
                    match Add env disk it'
                            (Join (HololibCatalogLocation cfg) name) relative with
                    | (Some err, it'') =>
                        (Fail ("Could not add catalog to zip -> " +:+ err +:+ "."),
                         it'')
                    | (None, it'') =>
                        export_catalogs cfg env disk root rest it'' true
                    end
                end
            end
        end
    end.
Proof. reflexivity. Qed.




End Traversals.

(** *** The error handling of [Export] *)

Section Errors.

Variables (cfg : Common) (env : Env) (disk : fsys) (ignore root : zip_visit).

(** A known catalog that does not load is passed over. *)
Lemma export_known_skip (before after : list string) (name : string) (it : zipseen) :
  NewRoot_err env "." = None ->
  load_catalog cfg disk name = None ->
  export_known cfg env disk ignore (before ++ name :: after) it
  = export_known cfg env disk ignore (before ++ after) it.
Proof.
  intros Hroot Hload. revert it.
  induction before as [|other before IH]; intros it.
  - simpl app. rewrite export_known_cons. unfold NewRoot. rewrite Hroot.
    unfold load_catalog in Hload.
    destruct (LoadFrom disk (empty_root ".") (Join (HololibCatalogLocation cfg) name))
      as [[e|] fs]; [reflexivity | discriminate].
  - rewrite <- !app_comm_cons, !export_known_cons.
    unfold NewRoot. rewrite Hroot.
    destruct (LoadFrom disk _ _) as [[e|] fs]; [apply IH|].
    destruct (ignore fs it) as [[e|] it']; [reflexivity | apply IH].
Qed.

(** The first loop fails with a message that starts "Could not", and
    never panics. *)
Lemma export_known_outcome (known : list string) (it : zipseen) :
  match fst (export_known cfg env disk ignore known it) with
  | Return _ => True
  | Fail msg => String.get 0 msg = Some "C"%char
  | Panic _ => False
  end.
Proof.
  revert it. induction known as [|name rest IH]; intros it; [exact I|].
  rewrite export_known_cons. unfold NewRoot.
  destruct (NewRoot_err env "."); [reflexivity|].
  destruct (LoadFrom disk _ _) as [[e|] fs]; [apply IH|].
  destruct (ignore fs it) as [[e|] it']; [reflexivity | apply IH].
Qed.

(** The second loop: when it returns, every catalog loaded and the flag
    is set unless the list is empty; when it fails, the message starts
    "Could not"; it never panics. *)
Lemma export_catalogs_outcome (catalogs : list string) (it : zipseen)
    (exported : bool) :
  match fst (export_catalogs cfg env disk root catalogs it exported) with
  | Return flag =>
      (forall name, name ∈ catalogs -> is_Some (load_catalog cfg disk name)) /\
      flag = match catalogs with [] => exported | _ :: _ => true end
  | Fail msg => String.get 0 msg = Some "C"%char
  | Panic _ => False
  end.
Proof.
  revert it exported. induction catalogs as [|name rest IH]; intros it exported.
  - simpl. split; [|reflexivity]. intros name H. by apply elem_of_nil in H.
  - rewrite export_catalogs_cons. unfold NewRoot.
    destruct (NewRoot_err env "."); [reflexivity|].
    destruct (LoadFrom disk (empty_root ".") (Join (HololibCatalogLocation cfg) name))
      as [[e|] fs] eqn:Hload; [reflexivity|].
    destruct (root fs it) as [[e|] mid]; [reflexivity|].
    destruct (Rel _ _) as [relative|]; [|reflexivity].
    destruct (Add env disk mid _ relative) as [[e|] last]; [reflexivity|].
    specialize (IH last true).
    destruct (fst (export_catalogs cfg env disk root rest last true))
      as [flag|msg|msg]; [|exact IH|exact IH].
    destruct IH as [Hall Hflag]. split.
    + intros other [->|Hin]%elem_of_cons; [|by apply Hall].
      unfold load_catalog. rewrite Hload. by eexists.
    + destruct rest; congruence.
Qed.

(** A catalog to export that does not load stops the second loop with the
    error of that catalog, once the loop gets to it. *)
Lemma export_catalogs_unloadable (name : string) (rest : list string)
    (it : zipseen) (exported : bool) :
  NewRoot_err env "." = None ->
  load_catalog cfg disk name = None ->
  exists err : string,
    export_catalogs cfg env disk root (name :: rest) it exported
    = (Fail ("Could not load catalog from "
             +:+ Join (HololibCatalogLocation cfg) name +:+ " -> " +:+ err +:+ "."),
       it).
Proof.
  intros Hroot Hload. rewrite export_catalogs_cons. unfold NewRoot. rewrite Hroot.
  unfold load_catalog in Hload.
  destruct (LoadFrom disk (empty_root ".") (Join (HololibCatalogLocation cfg) name))
    as [[e|] fs]; [|discriminate].
  by exists e.
Qed.

Lemma nothing_to_export_first : String.get 0 nothing_to_export = Some "N"%char.
Proof. reflexivity. Qed.

(** C4, as amended. For every [Export] call: a known catalog that fails
    to load is skipped, the export goes on as if it were not listed; a
    catalog to export that fails to load makes [Export] return an error,
    and so [Export] fails when no catalog to export is loadable. The
    error is the nothing-to-export one exactly when the list of catalogs
    to export is empty (and the archive and the known catalogs went
    through); with a first catalog to export that does not load it is
    that catalog's load error. *)
Theorem Export_unloadable (catalogs known : list string) (archive : string) :
  let result := Export cfg env disk ignore root catalogs known archive in
  (forall before name after,
     known = (before ++ name :: after)%list ->
     NewRoot_err env "." = None ->
     load_catalog cfg disk name = None ->
     result = Export cfg env disk ignore root catalogs (before ++ after) archive) /\
  (forall name,
     name ∈ catalogs -> load_catalog cfg disk name = None ->
     failed (fst result) = true) /\
  ((forall name, name ∈ catalogs -> load_catalog cfg disk name = None) ->
   failed (fst result) = true) /\
  (fst result = Fail nothing_to_export <->
   Create_err env archive = None /\
   returned (fst (export_known cfg env disk ignore known new_zipseen)) = true /\
   catalogs = []) /\
  (forall name rest,
     catalogs = name :: rest ->
     load_catalog cfg disk name = None ->
     Create_err env archive = None ->
     NewRoot_err env "." = None ->
     returned (fst (export_known cfg env disk ignore known new_zipseen)) = true ->
     exists err : string,
       fst result
       = Fail ("Could not load catalog from "
               +:+ Join (HololibCatalogLocation cfg) name +:+ " -> " +:+ err +:+ ".")).
Proof.
  intros result.
  assert (Hfails : forall name,
            name ∈ catalogs -> load_catalog cfg disk name = None ->
            failed (fst result) = true).
  { intros name Hin Hload. subst result. unfold Export.
    destruct (Create_err env archive); [reflexivity|].
    pose proof (export_known_outcome known new_zipseen) as Hknown.
    destruct (export_known cfg env disk ignore known new_zipseen)
      as [[[]|msg|msg] mid]; simpl in Hknown; [|reflexivity|contradiction].
    pose proof (export_catalogs_outcome catalogs mid false) as Hcat.
    destruct (export_catalogs cfg env disk root catalogs mid false)
      as [[flag|msg|msg] last]; simpl in Hcat; [|reflexivity|contradiction].
    destruct Hcat as [Hall _]. destruct (Hall name Hin) as [fs Hfs]. congruence. }
  split; [|split; [exact Hfails|split; [|split]]].
  - intros before name after -> Hroot Hload. subst result. unfold Export.
    destruct (Create_err env archive); [reflexivity|].
    by rewrite export_known_skip.
  - intros Hnone. destruct catalogs as [|name rest] eqn:Hcatalogs.
    + subst result. unfold Export.
      destruct (Create_err env archive); [reflexivity|].
      pose proof (export_known_outcome known new_zipseen) as Hknown.
      destruct (export_known cfg env disk ignore known new_zipseen)
        as [[[]|msg|msg] mid]; simpl in Hknown; [|reflexivity|contradiction].
      reflexivity.
    + apply (Hfails name); [apply elem_of_cons; by left|].
      apply Hnone. apply elem_of_cons. by left.
  - subst result. unfold Export.
    destruct (Create_err env archive) as [e|].
    { split; [|intros (H & _); discriminate]. intros [= H]. }
    pose proof (export_known_outcome known new_zipseen) as Hknown.
    destruct (export_known cfg env disk ignore known new_zipseen)
      as [[[]|msg|msg] mid]; simpl in Hknown; [| |contradiction].
    2: { split; [|intros (_ & H & _); discriminate].
         intros [= ->]. rewrite nothing_to_export_first in Hknown. discriminate. }
    pose proof (export_catalogs_outcome catalogs mid false) as Hcat.
    destruct (export_catalogs cfg env disk root catalogs mid false)
      as [[flag|msg|msg] last] eqn:Hrun; simpl in Hcat; [| |contradiction].
    + destruct Hcat as [_ ->]. destruct catalogs as [|name rest]; simpl.
      * split; [done|reflexivity].
      * split; [discriminate | intros (_ & _ & H); discriminate].
    + simpl. split.
      * intros [= ->]. rewrite nothing_to_export_first in Hcat. discriminate.
      * intros (_ & _ & ->). simpl in Hrun. discriminate.
  - intros name rest -> Hload Hcreate Hroot Hknown. subst result. unfold Export.
    rewrite Hcreate.
    destruct (export_known cfg env disk ignore known new_zipseen)
      as [[[]|msg|msg] mid]; simpl in Hknown; try discriminate.
    destruct (export_catalogs_unloadable name rest mid false Hroot Hload)
      as [err Herr].
    rewrite Herr. by exists err.
Qed.

End Errors.

(** *** What an export writes *)



Section Archive.

Variables (cfg : Common) (env : Env) (disk : fsys).


End Archive.

Import Sample.


Lemma Export_unloadable_witness :
  let missing := "ffff0000v12.linux_amd64" in
  load_catalog cfg disk missing = None /\
  ExportArchive cfg env disk [CatalogName cfg key2] [missing] "/tmp/export.zip"
  = ExportArchive cfg env disk [CatalogName cfg key2] [] "/tmp/export.zip" /\
  failed (fst (ExportArchive cfg env disk [missing] [] "/tmp/export.zip")) = true /\
  fst (ExportArchive cfg env disk [] [CatalogName cfg key1] "/tmp/export.zip")
  = Fail nothing_to_export.
Proof.
  intros missing.
  assert (Hmissing : load_catalog cfg disk missing = None).
  { vm_compute. reflexivity. }
  split; [exact Hmissing|]. split; [|split].
  - destruct (Export_unloadable cfg env disk (TreetopZipIgnore cfg)
                (TreetopZipRoot cfg env disk) [CatalogName cfg key2] [missing]
                "/tmp/export.zip") as (Hskip & _).
    apply (Hskip [] missing []); [reflexivity | reflexivity | exact Hmissing].
  - destruct (Export_unloadable cfg env disk (TreetopZipIgnore cfg)
                (TreetopZipRoot cfg env disk) [missing] []
                "/tmp/export.zip") as (_ & Hfail & _).
    apply (Hfail missing); [repeat constructor | exact Hmissing].
  - destruct (Export_unloadable cfg env disk (TreetopZipIgnore cfg)
                (TreetopZipRoot cfg env disk) [] [CatalogName cfg key1]
                "/tmp/export.zip") as (_ & _ & _ & Hnothing & _).
    apply Hnothing. vm_compute. repeat split.
Defined.

(** C4, as stated, fails: with the single catalog to export missing no
    catalog to export is loadable, and [Export] fails with the load error
    of that catalog, not with the nothing-to-export error. *)
Lemma Export_unloadable_is_load_error :
  let missing := "ffff0000v12.linux_amd64" in
  load_catalog cfg disk missing = None /\
  fst (ExportArchive cfg env disk [missing] [] "/tmp/export.zip")
  = Fail "Could not load catalog from /opt/ht/hololib/catalog/ffff0000v12.linux_amd64 -> cannot open /opt/ht/hololib/catalog/ffff0000v12.linux_amd64." /\
  fst (ExportArchive cfg env disk [missing] [] "/tmp/export.zip")
  <> Fail nothing_to_export.
Proof.
  vm_compute. split; [reflexivity|]. split; [reflexivity | discriminate].
Qed.

End ExportFacts.


(** ** Restore *)
Module RestoreFacts.

Import Paths Htfs.
Local Open Scope string_scope.

#[local] Arguments LoadFrom : simpl never.
#[local] Arguments operating_mode : simpl never.
#[local] Arguments current_state : simpl never.
#[local] Arguments Stats.Dirtyness : simpl never.
#[local] Arguments FileExist : simpl never.

(** A run that stopped at a failed step: it did not return, the file
    system is as before, and nothing was saved. *)
Ltac failed_step :=
  right; split; [reflexivity|]; split; [reflexivity|];
  split; [repeat constructor; discriminate|].

(** The events of the file operations: none is an event of the lock, and
    those that change a target are on the target at hand. *)
Ltac tail_events :=
  repeat (apply Forall_cons; split;
          [split; [reflexivity
                  | intros Hm;
                    first [discriminate Hm | by left | right; by left | right; by right]]
          |]);
  apply Forall_nil_2.

Section Locked.

Variables (cfg : Common) (env : Env).
Variables (key catalog : string) (fs : Root) (targetdir controller space : string).
Variable partial : bool.

(** One run of the file operations of [RestoreTo]: either every step goes
    through, the meta-catalog is saved after the branches were made and
    the directories restored, and the target is returned; or a step
    fails, and neither the file system nor the meta-catalog is touched. *)
Lemma restore_files_spec (currentstate : gmap string string) (w : world) :
  let metafile := targetdir +:+ ".meta" in
  let relocated := Relocated env fs targetdir in
  let score := RestoreDirectory_score env (disk_of w) relocated currentstate in
  let saved := stamped relocated controller space in
  let run := restore_files cfg env key catalog fs targetdir currentstate
               controller space partial w in
  exists tail : list event,
    trace_of (snd run) = (trace_of w ++ tail)%list /\
    Forall (fun ev => is_lock_event ev = false /\
                      (modifies_target ev = true -> touches targetdir ev)) tail /\
    ((Relocate_err env fs targetdir = None /\
      MakeBranches_err env relocated = None /\
      RestoreDirectory_err env (disk_of w) relocated currentstate = None /\
      is_Some (Stats.Dirtyness score) /\
      SaveAs_err env metafile saved = None /\
      fst run = Return targetdir /\
      disk_of (snd run) = <[metafile := CatalogFile saved]> (disk_of w) /\
      exists (q : Q) (rest : list event),
        tail = EvMakeBranches targetdir :: EvRestoreDirectory targetdir
                 :: EvBuildDirty q :: EvSaveAs metafile :: rest /\
        Forall (fun ev => modifies_target ev = false) rest)
     \/
     (returned (fst run) = false /\
      disk_of (snd run) = disk_of w /\
      Forall (fun ev => forall path, ev <> EvSaveAs path) tail /\
      (Relocate_err env fs targetdir <> None \/
       MakeBranches_err env relocated <> None \/
       RestoreDirectory_err env (disk_of w) relocated currentstate <> None \/
       Stats.Dirtyness score = None \/
       SaveAs_err env metafile saved <> None))).
Proof.
  intros metafile relocated score saved run.
  subst run score saved relocated metafile.
  unfold restore_files, bind, emit, ret, fail_On,
    restore_directories, score_dirtyness, save_as, file_exist, touchUsedHash.
  simpl.
  destruct (Relocate_err env fs targetdir) as [e|] eqn:Hrelocate; simpl.
  { exists []. rewrite app_nil_r. split; [reflexivity|]. split; [tail_events|].
    failed_step. by left. }
  destruct (MakeBranches_err env _) as [e|] eqn:Hbranches; simpl.
  { eexists. split; [reflexivity|]. split; [tail_events|].
    failed_step. right. by left. }
  destruct (RestoreDirectory_err env (disk_of w) _ currentstate)
    as [e|] eqn:Hrestore; simpl.
  { eexists. split; [rewrite <- !app_assoc; reflexivity|].
    split; [tail_events|].
    failed_step. right. right. by left. }
  destruct (Stats.Dirtyness _) as [q|] eqn:Hdirty; simpl.
  2: { eexists. split; [rewrite <- !app_assoc; reflexivity|].
       split; [tail_events|].
       failed_step. right. right. right. by left. }
  destruct (SaveAs_err env _ _) as [e|] eqn:Hsave; simpl.
  { eexists. split; [rewrite <- !app_assoc; reflexivity|].
    split; [tail_events|].
    failed_step. right. right. right. by right. }
  destruct (negb partial && FileExist _ (Join targetdir "rcc_plan.log"));
    destruct (negb partial && FileExist _ (Join targetdir "identity.yaml"));
    simpl;
    (eexists; split; [rewrite <- !app_assoc; reflexivity|];
     split; [tail_events|];
     left; repeat split; [by eexists|];
     eexists _, _; split; [reflexivity | repeat constructor]).
Qed.

(** One run of the part of [RestoreTo] that holds the lock: first the
    report of the operating mode, found from the previous meta-catalog,
    then the file operations. *)
Lemma restore_locked_spec (w : world) :
  let shadow := previous_meta env (disk_of w) targetdir in
  let run := restore_locked cfg env key catalog fs targetdir controller space
               partial w in
  exists (head : list event) (w0 : world),
    disk_of w0 = disk_of w /\
    trace_of w0 = (trace_of w ++ head)%list /\
    Forall (fun ev => modifies_target ev = false /\ is_lock_event ev = false) head /\
    EvDebug ("Holotree operating mode is: " +:+ operating_mode key shadow) ∈ head /\
    run = restore_files cfg env key catalog fs targetdir (current_state env shadow)
            controller space partial w0.
Proof.
  intros shadow run. subst run.
  unfold restore_locked, bind, emit, ret, load_from, NewRoot. simpl.
  assert (Hshadow : shadow
                    = match NewRoot_err env targetdir with
                      | None => LoadFrom (disk_of w) (empty_root targetdir)
                                  (targetdir +:+ ".meta")
                      | Some err => (Some err, empty_root targetdir)
                      end).
  { subst shadow. unfold previous_meta, NewRoot.
    destruct (NewRoot_err env targetdir); reflexivity. }
  destruct (NewRoot_err env targetdir) as [e|] eqn:Hroot; simpl.
  - rewrite <- Hshadow.
    eexists _, _. split; [|split; [|split; [|split; [|reflexivity]]]];
      [reflexivity | simpl; rewrite <- !app_assoc; reflexivity
       | repeat constructor | repeat constructor].
  - rewrite <- Hshadow.
    destruct shadow as [[e|] loaded]; simpl;
      (eexists _, _; split; [|split; [|split; [|split; [|reflexivity]]]];
       [reflexivity | simpl; rewrite <- !app_assoc; reflexivity
        | repeat constructor | repeat constructor]).
Qed.

End Locked.

Section Restore.

Variables (cfg : Common) (env : Env) (it : hololib).
Variables (blueprint label controller space : string) (partial : bool).

(** How far a restore gets: it stops at the stage directory, at the stage
    root, at the catalog or at the lock, or it runs the locked part and
    releases the lock. *)
Lemma RestoreTo_cases (w : world) :
  let stage := restore_stage cfg it in
  let key := BlueprintHash cfg blueprint in
  let catalog := CatalogPath cfg key in
  let run := RestoreTo cfg env it blueprint label controller space partial w in
  (exists e, MkdirAll_err env stage = Some e /\
             run = (Panic e, after w [EvMkdirAll stage])) \/
  (exists e, MkdirAll_err env stage = None /\ NewRoot_err env stage = Some e /\
             run = (Fail ("Failed to create stage -> " +:+ e),
                    after w [EvMkdirAll stage])) \/
  (exists e fs, MkdirAll_err env stage = None /\ NewRoot_err env stage = None /\
                restore_catalog cfg (disk_of w) it blueprint = (Some e, fs) /\
                run = (Fail ("Failed to load catalog " +:+ catalog +:+ " -> " +:+ e),
                       after w [EvMkdirAll stage; EvLoadFrom catalog])) \/
  (exists fs,
     MkdirAll_err env stage = None /\ NewRoot_err env stage = None /\
     restore_catalog cfg (disk_of w) it blueprint = (None, fs) /\
     let targetdir := Join (HolotreeBase env fs) label in
     let lockfile := targetdir +:+ ".lck" in
     (exists e, Locker_err env lockfile 30000 (SharedHolotree cfg) = Some e /\
        run = (Fail ("Could not get lock for " +:+ targetdir +:+ ". Quiting."),
               after w [EvMkdirAll stage; EvLoadFrom catalog;
                        EvLockWaitMessage lockfile;
                        EvLocker lockfile 30000 (SharedHolotree cfg) false])) \/
     (Locker_err env lockfile 30000 (SharedHolotree cfg) = None /\
      let locked :=
        restore_locked cfg env key catalog fs targetdir controller space partial
          (after w [EvMkdirAll stage; EvLoadFrom catalog;
                    EvLockWaitMessage lockfile;
                    EvLocker lockfile 30000 (SharedHolotree cfg) true]) in
      run = (fst locked, after (snd locked) [EvRelease lockfile]))).
Proof.
  intros stage key catalog run. subst run.
  unfold RestoreTo, bind, stage_dir, NewRoot, fail_On, load_from, emit, locker,
    deferred, after.
  fold key catalog. unfold restore_catalog. fold key catalog stage.
  change (Join (HolotreeLocation cfg) (Identity cfg it)) with stage. simpl.
  destruct (MkdirAll_err env stage) as [e|] eqn:Hmkdir; simpl.
  { left. by exists e. }
  destruct (NewRoot_err env stage) as [e|] eqn:Hroot; simpl.
  { right. left. by exists e. }
  destruct (LoadFrom (disk_of w) (empty_root stage) catalog) as [[e|] fs] eqn:Hload;
    simpl.
  { right. right. left. exists e, fs. rewrite <- !app_assoc. done. }
  right. right. right. exists fs. repeat split.
  destruct (Locker_err env _ 30000 (SharedHolotree cfg)) as [e|] eqn:Hlock; simpl.
  - left. exists e. rewrite <- !app_assoc. done.
  - right. split; [reflexivity|]. rewrite <- !app_assoc. simpl.
    destruct (restore_locked cfg env key catalog fs _ controller space partial _)
      as [result w']. reflexivity.
Qed.

(** A restore that got the lock: the events of the locked part lie
    between the acquisition and the release; the locked part is the
    report of the mode followed by the file operations. *)
Lemma RestoreTo_locked (w : world) (fs : Root) :
  let stage := restore_stage cfg it in
  let key := BlueprintHash cfg blueprint in
  let catalog := CatalogPath cfg key in
  let targetdir := Join (HolotreeBase env fs) label in
  let lockfile := targetdir +:+ ".lck" in
  let shadow := previous_meta env (disk_of w) targetdir in
  let run := RestoreTo cfg env it blueprint label controller space partial w in
  MkdirAll_err env stage = None ->
  NewRoot_err env stage = None ->
  restore_catalog cfg (disk_of w) it blueprint = (None, fs) ->
  Locker_err env lockfile 30000 (SharedHolotree cfg) = None ->
  exists (head : list event) (w0 : world),
    let files := restore_files cfg env key catalog fs targetdir
                   (current_state env shadow) controller space partial w0 in
    disk_of w0 = disk_of w /\
    trace_of w0
    = (trace_of w ++ [EvMkdirAll stage; EvLoadFrom catalog;
                      EvLockWaitMessage lockfile;
                      EvLocker lockfile 30000 (SharedHolotree cfg) true] ++ head)%list /\
    Forall (fun ev => modifies_target ev = false /\ is_lock_event ev = false) head /\
    EvDebug ("Holotree operating mode is: " +:+ operating_mode key shadow) ∈ head /\
    run = (fst files, after (snd files) [EvRelease lockfile]).
Proof.
  intros stage key catalog targetdir lockfile shadow run Hmkdir Hroot Hload Hlock.
  pose proof (RestoreTo_cases w) as Hcases. cbv zeta in Hcases.
  fold stage key catalog run in Hcases.
  destruct Hcases
    as [(e & H & _)|[(e & _ & H & _)|[(e & fs' & _ & _ & H & _)|
        (fs' & _ & _ & Hfs & [(e & H & _)|(_ & Hrun)])]]];
    try congruence.
  { rewrite Hload in Hfs. injection Hfs as <-.
    fold targetdir lockfile in H. congruence. }
  rewrite Hload in Hfs. injection Hfs as <-.
  fold targetdir lockfile in Hrun.
  destruct (restore_locked_spec cfg env key catalog fs targetdir controller space
              partial (after w [EvMkdirAll stage; EvLoadFrom catalog;
                                EvLockWaitMessage lockfile;
                                EvLocker lockfile 30000 (SharedHolotree cfg) true]))
    as (head & w0 & Hdisk & Htrace & Hquiet & Hmode & Hfiles).
  exists head, w0. simpl in Hdisk, Htrace, Hmode, Hfiles.
  split; [exact Hdisk|]. split; [by rewrite Htrace, <- app_assoc|].
  split; [exact Hquiet|]. split; [exact Hmode|].
  rewrite Hrun. cbv zeta. by rewrite Hfiles.
Qed.

(** The lock around one restore: its events are some that leave every
    target and the lock alone, and then, if the lock was acquired with the
    timeout of 30000 ms, the acquisition, the events of the locked part
    and the release; without the lock the restore fails with the file
    system as it was. *)
Lemma RestoreTo_lock_run (w : world) :
  let stage := restore_stage cfg it in
  let catalog := CatalogPath cfg (BlueprintHash cfg blueprint) in
  let run := RestoreTo cfg env it blueprint label controller space partial w in
  (exists quiet : list event,
     Forall (fun ev => modifies_target ev = false /\ lock_change ev = false) quiet /\
     ((trace_of (snd run) = (trace_of w ++ quiet)%list /\
       disk_of (snd run) = disk_of w /\
       returned (fst run) = false) \/
      (exists (fs : Root) (body : list event),
         let targetdir := Join (HolotreeBase env fs) label in
         let lockfile := targetdir +:+ ".lck" in
         restore_catalog cfg (disk_of w) it blueprint = (None, fs) /\
         Locker_err env lockfile 30000 (SharedHolotree cfg) = None /\
         trace_of (snd run)
         = (trace_of w ++ quiet
              ++ EvLocker lockfile 30000 (SharedHolotree cfg) true
              :: body ++ [EvRelease lockfile])%list /\
         Forall (fun ev => lock_change ev = false /\
                           (modifies_target ev = true -> touches targetdir ev))
           body))) /\
  (forall fs : Root,
     let targetdir := Join (HolotreeBase env fs) label in
     let lockfile := targetdir +:+ ".lck" in
     MkdirAll_err env stage = None ->
     NewRoot_err env stage = None ->
     restore_catalog cfg (disk_of w) it blueprint = (None, fs) ->
     Locker_err env lockfile 30000 (SharedHolotree cfg) <> None ->
     run = (Fail ("Could not get lock for " +:+ targetdir +:+ ". Quiting."),
            after w [EvMkdirAll stage; EvLoadFrom catalog;
                     EvLockWaitMessage lockfile;
                     EvLocker lockfile 30000 (SharedHolotree cfg) false])).
Proof.
  intros stage catalog run. subst run catalog stage.
  pose proof (RestoreTo_cases w) as Hcases. cbv zeta in Hcases.
  split.
  - destruct Hcases
      as [(e & Hmkdir & Hrun)|[(e & Hmkdir & Hroot & Hrun)|
          [(e & fs & Hmkdir & Hroot & Hload & Hrun)|
           (fs & Hmkdir & Hroot & Hload & [(e & Hlock & Hrun)|(Hlock & Hrun)])]]].
    + exists [EvMkdirAll (restore_stage cfg it)].
      split; [repeat constructor|]. left. rewrite Hrun. repeat split.
    + exists [EvMkdirAll (restore_stage cfg it)].
      split; [repeat constructor|]. left. rewrite Hrun. repeat split.
    + exists [EvMkdirAll (restore_stage cfg it);
              EvLoadFrom (CatalogPath cfg (BlueprintHash cfg blueprint))].
      split; [repeat constructor|]. left. rewrite Hrun. repeat split.
    + exists [EvMkdirAll (restore_stage cfg it);
              EvLoadFrom (CatalogPath cfg (BlueprintHash cfg blueprint));
              EvLockWaitMessage (Join (HolotreeBase env fs) label +:+ ".lck");
              EvLocker (Join (HolotreeBase env fs) label +:+ ".lck") 30000
                (SharedHolotree cfg) false].
      split; [repeat constructor|]. left. rewrite Hrun. repeat split.
    + destruct (RestoreTo_locked w fs Hmkdir Hroot Hload Hlock)
        as (head & w0 & Hdisk & Htrace & Hquiet & _ & Hrun').
      destruct (restore_files_spec cfg env (BlueprintHash cfg blueprint)
                  (CatalogPath cfg (BlueprintHash cfg blueprint)) fs
                  (Join (HolotreeBase env fs) label) controller space partial
                  (current_state env
                     (previous_meta env (disk_of w) (Join (HolotreeBase env fs) label)))
                  w0) as (tail & Htail & Hnolock & _).
      exists [EvMkdirAll (restore_stage cfg it);
              EvLoadFrom (CatalogPath cfg (BlueprintHash cfg blueprint));
              EvLockWaitMessage (Join (HolotreeBase env fs) label +:+ ".lck")].
      split; [repeat constructor|].
      right. exists fs, (head ++ tail)%list.
      split; [exact Hload|]. split; [exact Hlock|]. split.
      * rewrite Hrun'. simpl. rewrite Htail, Htrace. rewrite <- !app_assoc.
        reflexivity.
      * apply Forall_app. split.
        -- eapply Forall_impl; [exact Hquiet|]. intros ev [Hm Hl].
           split; [by destruct ev | congruence].
        -- eapply Forall_impl; [exact Hnolock|]. intros ev [Hl Ht].
           split; [by destruct ev | exact Ht].
  - intros fs targetdir lockfile Hmkdir Hroot Hload Hlock.
    destruct Hcases
      as [(e & H & _)|[(e & _ & H & _)|[(e & fs' & _ & _ & H & _)|
          (fs' & _ & _ & Hfs & [(e & _ & Hrun)|(H & _)])]]];
      try congruence.
    + rewrite Hload in Hfs. injection Hfs as <-. exact Hrun.
    + rewrite Hload in Hfs. injection Hfs as <-. contradiction.
Qed.



End Restore.

(** *** Restores side by side *)

Local Close Scope string_scope.

Lemma project_app (p : nat) (s1 s2 : schedule) :
  project p (s1 ++ s2) = (project p s1 ++ project p s2)%list.
Proof. unfold project. by rewrite filter_app, fmap_app. Qed.

Lemma project_cons (p q : nat) (ev : event) (s : schedule) :
  project p ((q, ev) :: s)
  = if decide (q = p) then ev :: project p s else project p s.
Proof.
  unfold project. rewrite filter_cons. simpl.
  destruct (decide (q = p)); reflexivity.
Qed.

Lemma holder_snoc (lockfile : string) (s : schedule) (step : nat * event) :
  holder lockfile (s ++ [step]) = lock_step lockfile (holder lockfile s) step.
Proof. unfold holder. by rewrite fold_left_app. Qed.

Lemma exclusive_prefix (lockfile : string) (s1 s2 : schedule) :
  exclusive lockfile (s1 ++ s2) -> exclusive lockfile s1.
Proof.
  intros Hex before p timeout shared rest ->.
  apply (Hex before p timeout shared (rest ++ s2)%list).
  by rewrite <- app_assoc.
Qed.

(** A step of a process that does not change the lock leaves the holder. *)
Lemma lock_step_unchanged (lockfile : string) (current : option nat)
    (p : nat) (ev : event) :
  lock_change ev = false -> lock_step lockfile current (p, ev) = current.
Proof. destruct ev as [| | |? ? ? []| | | | | | | | | | | |]; done. Qed.

(** Under an exclusive lock, the process that operates under the lock is
    the one that holds it. *)
Lemma operating_holds (lockfile : string) (s : schedule) (p : nat) :
  exclusive lockfile s ->
  operating lockfile (project p s) ->
  holder lockfile s = Some p.
Proof.
  induction s as [|[q ev] s IH] using rev_ind; intros Hex Hop.
  { destruct Hop as (before & timeout & shared & body & Heq & _).
    by destruct before. }
  pose proof (exclusive_prefix _ _ _ Hex) as Hex'.
  rewrite holder_snoc. rewrite project_app, project_cons in Hop.
  destruct (decide (q = p)) as [->|Hne].
  - destruct Hop as (before & timeout & shared & body & Heq & Hbody).
    destruct body as [|last body _] using rev_ind.
    + apply app_inj_tail in Heq as [_ ->]. simpl.
      by destruct (decide (lockfile = lockfile)).
    + rewrite app_comm_cons, app_assoc in Heq.
      apply app_inj_tail in Heq as [Heq ->].
      apply Forall_app in Hbody as [Hbody Hlast].
      apply Forall_cons in Hlast as [Hlast _].
      rewrite lock_step_unchanged by exact Hlast.
      apply IH; [exact Hex'|]. by exists before, timeout, shared, body.
  - simpl in Hop. rewrite app_nil_r in Hop.
    specialize (IH Hex' Hop). rewrite IH.
    destruct ev as [| | |file timeout shared []| file | | | | | | | | | | |];
      try reflexivity; simpl.
    + destruct (decide (file = lockfile)) as [->|]; [|reflexivity].
      specialize (Hex s q timeout shared [] eq_refl). congruence.
    + destruct (decide (file = lockfile /\ Some p = Some q)) as [[_ [= ->]]|];
        [contradiction | reflexivity].
Qed.

(** In the events of a restore that got the lock, an event that changes
    a target comes while the restore operates under the lock. *)
Lemma touching_operates (lockfile : string) (shared : bool)
    (quiet body earlier later : list event) (ev : event) :
  Forall (fun ev => modifies_target ev = false /\ lock_change ev = false) quiet ->
  Forall (fun ev => lock_change ev = false) body ->
  (earlier ++ ev :: later
   = quiet ++ EvLocker lockfile 30000 shared true :: body ++ [EvRelease lockfile])%list ->
  modifies_target ev = true ->
  operating lockfile earlier.
Proof.
  intros Hquiet Hbody Heq Hmod. revert earlier Heq.
  induction Hquiet as [|first quiet [Hfirst _] _ IH]; intros earlier Heq.
  - destruct earlier as [|lock earlier]; simpl in Heq.
    { injection Heq as -> _. discriminate. }
    injection Heq as -> Heq.
    exists [], 30000, shared, earlier. split; [reflexivity|].
    revert body Hbody Heq.
    induction earlier as [|x earlier IH]; intros body Hbody Heq; [constructor|].
    destruct body as [|b body]; simpl in Heq.
    + injection Heq as -> Heq. by destruct earlier.
    + injection Heq as -> Heq. apply Forall_cons in Hbody as [Hb Hbody].
      apply Forall_cons. split; [exact Hb | by apply (IH body)].
  - destruct earlier as [|x earlier]; simpl in Heq.
    { injection Heq as -> _. congruence. }
    injection Heq as -> Heq.
    destruct (IH earlier Heq) as (before & timeout & sh & inner & -> & Hinner).
    by exists (first :: before), timeout, sh, inner.
Qed.

(** The events of a restore of a target: none changes a target, or they
    are wrapped in the lock of the target. *)
Lemma restores_shape (targetdir : string) (events : list event) :
  restores targetdir events ->
  Forall (fun ev => modifies_target ev = false) events \/
  exists (quiet body : list event) (shared : bool),
    events = (quiet ++ EvLocker (targetdir +:+ ".lck") 30000 shared true
                :: body ++ [EvRelease (targetdir +:+ ".lck")])%list /\
    Forall (fun ev => modifies_target ev = false /\ lock_change ev = false) quiet /\
    Forall (fun ev => lock_change ev = false) body.
Proof.
  intros (cfg & env & it & blueprint & label & controller & space & partial
          & disk & -> & Htarget).
  destruct (RestoreTo_lock_run cfg env it blueprint label controller space partial
              {| disk_of := disk; trace_of := [] |})
    as [(quiet & Hquiet & [(Htrace & _)|(fs & body & Hload & _ & Htrace & Hbody)]) _].
  - left. rewrite Htrace. simpl.
    eapply Forall_impl; [exact Hquiet|]. by intros ev [H _].
  - right. simpl in Hload, Htrace. rewrite (Htarget fs Hload) in Htrace, Hbody.
    exists quiet, body, (SharedHolotree cfg). split; [exact Htrace|].
    split; [exact Hquiet|].
    eapply Forall_impl; [exact Hbody|]. by intros ev [H _].
Qed.

(** Restores of one target side by side, under an exclusive lock: at any
    moment at most one of them operates under the lock, and an event on
    the target belongs to a restore that does. *)
Lemma restores_serialized (targetdir : string) (s : schedule) :
  (forall p, p ∈ (fst <$> s) -> restores targetdir (project p s)) ->
  exclusive (targetdir +:+ ".lck") s ->
  forall before rest : schedule,
    s = (before ++ rest)%list ->
    (forall p q,
       operating (targetdir +:+ ".lck") (project p before) ->
       operating (targetdir +:+ ".lck") (project q before) ->
       p = q) /\
    (forall p ev rest',
       rest = (p, ev) :: rest' ->
       touches targetdir ev ->
       operating (targetdir +:+ ".lck") (project p before)).
Proof.
  intros Hruns Hex before rest ->. split.
  - intros p q Hp Hq.
    pose proof (exclusive_prefix _ _ _ Hex) as Hex'.
    pose proof (operating_holds _ _ _ Hex' Hp) as Hholder.
    rewrite (operating_holds _ _ _ Hex' Hq) in Hholder. congruence.
  - intros p ev rest' -> Htouch.
    assert (Hmod : modifies_target ev = true).
    { destruct Htouch as [->|[->| ->]]; reflexivity. }
    assert (Hin : p ∈ (fst <$> (before ++ (p, ev) :: rest')%list)).
    { rewrite fmap_app. apply elem_of_app. right. simpl. apply elem_of_cons. by left. }
    pose proof (Hruns p Hin) as Hrun. apply restores_shape in Hrun.
    rewrite project_app, project_cons in Hrun.
    destruct (decide (p = p)) as [_|]; [|contradiction].
    destruct Hrun as [Hnone|(quiet & body & shared & Heq & Hquiet & Hbody)].
    + apply Forall_app in Hnone as [_ Hnone].
      apply Forall_cons in Hnone as [Hnone _]. congruence.
    + exact (touching_operates _ shared quiet body _ _ ev Hquiet Hbody Heq Hmod).
Qed.

(** C3. For every [RestoreTo] call the lock file [<targetdir>.lck] is
    asked for with a timeout of 30000 ms before anything is done to the
    target: the events of a restore are some that leave every target
    alone, and then, if the lock was acquired, the acquisition, the events
    of the locked part, all on this target, and the release. If the lock
    is not acquired, [RestoreTo] returns the error "Could not get lock for
    <targetdir>. Quiting." right after the attempt, with the file system
    as it was. So when restores of one target run side by side and the
    lock is exclusive, at most one of them operates under the lock at a
    time, and every event on the target belongs to that one. *)
Theorem RestoreTo_lock :
  (forall (cfg : Common) (env : Env) (it : hololib)
          (blueprint label controller space : string) (partial : bool) (w : world),
     let stage := restore_stage cfg it in
     let catalog := CatalogPath cfg (BlueprintHash cfg blueprint) in
     let run := RestoreTo cfg env it blueprint label controller space partial w in
     (exists quiet : list event,
        Forall (fun ev => modifies_target ev = false /\ lock_change ev = false) quiet /\
        ((trace_of (snd run) = (trace_of w ++ quiet)%list /\
          disk_of (snd run) = disk_of w /\
          returned (fst run) = false) \/
         (exists (fs : Root) (body : list event),
            let targetdir := Join (HolotreeBase env fs) label in
            let lockfile := targetdir +:+ ".lck" in
            restore_catalog cfg (disk_of w) it blueprint = (None, fs) /\
            Locker_err env lockfile 30000 (SharedHolotree cfg) = None /\
            trace_of (snd run)
            = (trace_of w ++ quiet
                 ++ EvLocker lockfile 30000 (SharedHolotree cfg) true
                 :: body ++ [EvRelease lockfile])%list /\
            Forall (fun ev => lock_change ev = false /\
                              (modifies_target ev = true -> touches targetdir ev))
              body))) /\
     (forall fs : Root,
        let targetdir := Join (HolotreeBase env fs) label in
        let lockfile := targetdir +:+ ".lck" in
        MkdirAll_err env stage = None ->
        NewRoot_err env stage = None ->
        restore_catalog cfg (disk_of w) it blueprint = (None, fs) ->
        Locker_err env lockfile 30000 (SharedHolotree cfg) <> None ->
        run = (Fail ("Could not get lock for " +:+ targetdir +:+ ". Quiting."),
               after w [EvMkdirAll stage; EvLoadFrom catalog;
                        EvLockWaitMessage lockfile;
                        EvLocker lockfile 30000 (SharedHolotree cfg) false]))) /\
  (forall (targetdir : string) (s : schedule),
     (forall p, p ∈ (fst <$> s) -> restores targetdir (project p s)) ->
     exclusive (targetdir +:+ ".lck") s ->
     forall before rest : schedule,
       s = (before ++ rest)%list ->
       (forall p q,
          operating (targetdir +:+ ".lck") (project p before) ->
          operating (targetdir +:+ ".lck") (project q before) ->
          p = q) /\
       (forall p ev rest',
          rest = (p, ev) :: rest' ->
          touches targetdir ev ->
          operating (targetdir +:+ ".lck") (project p before))).
Proof.
  split.
  - intros cfg env it blueprint label controller space partial w.
    apply RestoreTo_lock_run.
  - apply restores_serialized.
Qed.

Local Open Scope string_scope.

(** *** The operating mode *)

Lemma operating_mode_cases (key : string) (shadow : option string * Root) :
  (fst shadow <> None /\ operating_mode key shadow = mode_new key) \/
  (fst shadow = None /\ Blueprint (snd shadow) = key /\
   operating_mode key shadow = mode_cleaned key) \/
  (fst shadow = None /\ Blueprint (snd shadow) <> key /\
   operating_mode key shadow = mode_converted (Blueprint (snd shadow)) key).
Proof.
  destruct shadow as [[e|] loaded]; unfold operating_mode; simpl.
  - left. done.
  - right. destruct (String.eqb_spec key (Blueprint loaded)) as [Heq|Hne].
    + left. done.
    + right. split; [reflexivity|]. split; [congruence | reflexivity].
Qed.

(** How the three modes read: the third one is worded "coverted". *)
Lemma mode_wording (previous key : string) :
  String.prefix "new space" (mode_new key) = true /\
  String.prefix "cleaned up space" (mode_cleaned key) = true /\
  String.prefix "coverted space" (mode_converted previous key) = true /\
  String.prefix "converted space" (mode_converted previous key) = false.
Proof. repeat split. Qed.

(** A restore that gets the lock reports the operating mode it found
    from the previous meta-catalog of the target. *)
Lemma RestoreTo_reports_mode (cfg : Common) (env : Env) (it : hololib)
    (blueprint label controller space : string) (partial : bool)
    (w : world) (fs : Root) :
  let targetdir := Join (HolotreeBase env fs) label in
  let run := RestoreTo cfg env it blueprint label controller space partial w in
  MkdirAll_err env (restore_stage cfg it) = None ->
  NewRoot_err env (restore_stage cfg it) = None ->
  restore_catalog cfg (disk_of w) it blueprint = (None, fs) ->
  Locker_err env (targetdir +:+ ".lck") 30000 (SharedHolotree cfg) = None ->
  EvDebug ("Holotree operating mode is: "
           +:+ operating_mode (BlueprintHash cfg blueprint)
                 (previous_meta env (disk_of w) targetdir))
    ∈ trace_of (snd run).
Proof.
  intros targetdir run Hmkdir Hroot Hload Hlock. subst run targetdir.
  destruct (RestoreTo_locked cfg env it blueprint label controller space partial
              w fs Hmkdir Hroot Hload Hlock)
    as (head & w0 & _ & Htrace & _ & Hmode & Hrun).
  destruct (restore_files_spec cfg env (BlueprintHash cfg blueprint)
              (CatalogPath cfg (BlueprintHash cfg blueprint)) fs
              (Join (HolotreeBase env fs) label) controller space partial
              (current_state env
                 (previous_meta env (disk_of w) (Join (HolotreeBase env fs) label)))
              w0) as (tail & Htail & _).
  rewrite Hrun. simpl. rewrite Htail, Htrace.
  apply elem_of_app. left. apply elem_of_app. left.
  apply elem_of_app. right. apply elem_of_app. right. exact Hmode.
Qed.

Import Sample.

Lemma RestoreTo_lock_witness :
  RestoreTo cfg env_locked lib key1 "space1" "user" "space" false world0
  = (Fail "Could not get lock for /opt/ht/holotree/space1. Quiting.",
     {| disk_of := disk;
        trace_of := [EvMkdirAll "/opt/ht/holotree/h1a2b3c4_0123456789abcdt";
                     EvLoadFrom "/opt/ht/hololib/catalog/aaaa1111bbbb2222v12.linux_amd64";
                     EvLockWaitMessage "/opt/ht/holotree/space1.lck";
                     EvLocker "/opt/ht/holotree/space1.lck" 30000 false false] |}) /\
  side_by_side !! 12%nat = Some (0%nat, EvMakeBranches target) /\
  operating "/opt/ht/holotree/space1.lck" (project 0 (take 12 side_by_side)).
Proof.
  destruct RestoreTo_lock as [Hrun Hserial]. split; [|split].
  - destruct (Hrun cfg env_locked lib key1 "space1" "user" "space" false world0)
      as [_ Hfail].
    rewrite (Hfail K1); [| reflexivity | reflexivity | | discriminate];
      vm_compute; reflexivity.
  - vm_compute. reflexivity.
  - assert (Hwinner : restores target (project 0 side_by_side)).
    { exists cfg, env, lib, key1, "space1", "user", "space", false, disk.
      split; [vm_compute; reflexivity|].
      intros fs Hfs. vm_compute in Hfs. injection Hfs as <-.
      vm_compute. reflexivity. }
    assert (Hloser : restores target (project 1 side_by_side)).
    { exists cfg, env_locked, lib, key1, "space1", "user", "space", false, disk.
      split; [vm_compute; reflexivity|].
      intros fs Hfs. vm_compute in Hfs. injection Hfs as <-.
      vm_compute. reflexivity. }
    assert (Hall : forall p, p ∈ (fst <$> side_by_side) ->
                             restores target (project p side_by_side)).
    { intros p Hp. apply list_elem_of_In in Hp. vm_compute in Hp.
      repeat (destruct Hp as [<-|Hp]; [assumption|]). contradiction. }
    assert (Hex : exclusive (target +:+ ".lck") side_by_side).
    { intros before p timeout shared rest Heq.
      let s := eval vm_compute in side_by_side in change side_by_side with s in Heq.
      let l := eval vm_compute in (target +:+ ".lck") in
        change (target +:+ ".lck") with l in Heq |- *.
      repeat (destruct before as [|step before];
              [first [discriminate Heq | reflexivity]
              |injection Heq as <- Heq]).
      destruct before; discriminate Heq. }
    destruct (Hserial target side_by_side Hall Hex
                (take 12 side_by_side) (drop 12 side_by_side))
      as [_ Htouch].
    { symmetry. apply take_drop. }
    apply (Htouch 0%nat (EvMakeBranches target) (drop 13 side_by_side)).
    + vm_compute. reflexivity.
    + by left.
Defined.



(** C5 at three restores in a row onto one target: the first finds a
    new space, the second, of the same blueprint, a cleaned up space, and
    the third, of another blueprint, reports "coverted space from ..."
    where the claim has "converted space". *)
Theorem RestoreTo_converted_mode_misspelt :
  let w1 := snd (RestoreTo cfg env lib key1 "space1" "user" "space" false world0) in
  let w2 := snd (RestoreTo cfg env lib key1 "space1" "user" "space" false w1) in
  let w3 := snd (RestoreTo cfg env lib key2 "space1" "user" "space" false w2) in
  EvDebug ("Holotree operating mode is: new space for " +:+ quoted key1)
    ∈ trace_of w1 /\
  EvDebug ("Holotree operating mode is: cleaned up space for " +:+ quoted key1)
    ∈ trace_of w2 /\
  EvDebug ("Holotree operating mode is: coverted space from " +:+ quoted key1
           +:+ " to " +:+ quoted key2) ∈ trace_of w3 /\
  Forall (fun ev => forall rest,
            ev <> EvDebug ("Holotree operating mode is: converted space" +:+ rest))
    (trace_of w3).
Proof.
  vm_compute. split; [repeat constructor|]. split; [repeat constructor|].
  split; [repeat constructor|].
  repeat (apply Forall_cons; split; [intros rest; discriminate|]).
  apply Forall_nil_2.
Qed.

End RestoreFacts.
